(** * Log dashboard: stream reconciliation and filter consistency

    A shallow embedding of the state logic of [src/src/App.jsx]: the filter
    predicate ([logMatchesFilters]), the generic filter ([applyFilters]), the
    visible-slice recompute effect, the socket handlers ([newLog],
    [statsUpdate]), the snapshot fetch ([fetchLogs], [fetchStats]) and the
    filter and page handlers.  React state cells become the fields of one
    record, each handler is a function on that record, and the effects that
    React runs after a render are run by [step] when one of their
    dependencies was given a new value.  [String.prototype.toLowerCase] is
    written out for ASCII text and taken from the platform for the rest. *)

From Stdlib Require Import ZArith List String Ascii Bool Lia.
From Stdlib Require Import DecimalString.
Import ListNotations.

Local Open Scope Z_scope.

(** ** The JavaScript built-ins the component uses *)

(** A string is held as its UTF-8 text.  Equality of two well-formed
    strings, and the occurrence of one in another, are the same on these
    bytes as on their UTF-16 code units. *)
Module JS.

(** Truthiness of a string: only the empty string is falsy. *)
Definition truthy (s : string) : bool :=
  match s with
  | EmptyString => false
  | String _ _ => true
  end.

(** A text of ASCII characters only: every byte below 128. *)
Definition isAsciiChar (c : ascii) : bool :=
  Nat.ltb (nat_of_ascii c) 128.

Fixpoint isAscii (s : string) : bool :=
  match s with
  | EmptyString => true
  | String c s' => (isAsciiChar c && isAscii s')%bool
  end.

(** What [String.prototype.toLowerCase] does to a text of ASCII
    characters: the letters A to Z become a to z, the rest stays. *)
Definition asciiLowerChar (c : ascii) : ascii :=
  let n := nat_of_ascii c in
  if (Nat.leb 65 n && Nat.leb n 90)%bool then ascii_of_nat (n + 32) else c.

Fixpoint asciiLowerCase (s : string) : string :=
  match s with
  | EmptyString => EmptyString
  | String c s' => String (asciiLowerChar c) (asciiLowerCase s')
  end.

Fixpoint startsWith (sub s : string) : bool :=
  match sub, s with
  | EmptyString, _ => true
  | String _ _, EmptyString => false
  | String a sub', String b s' => (Ascii.eqb a b && startsWith sub' s')%bool
  end.

(** [s.includes(sub)]: [sub] occurs in [s] at some position. *)
Fixpoint includes (s sub : string) : bool :=
  (startsWith sub s ||
   match s with
   | EmptyString => false
   | String _ s' => includes s' sub
   end)%bool.

(** [arr.slice(0, e)] for an integer [e]: a negative [e] counts from the
    end of the array, and the result never reaches past the array. *)
Definition slice0 {A : Type} (e : Z) (arr : list A) : list A :=
  let len := Z.of_nat (List.length arr) in
  let final := if e <? 0 then Z.max (len + e) 0 else Z.min e len in
  firstn (Z.to_nat final) arr.

End JS.

(** ** Data *)

(** A log record as it arrives from the backend:
    [{ _id, timestamp, level, service, message }]. *)
Module Log.
Record t : Type := mk
  { _id : string;
    timestamp : string;
    level : string;
    service : string;
    message : string }.
End Log.

(** The [filters] state object.  [limit] is the number 50 at first and one
    of the strings "25", "50", "100" after the page-size select is used;
    both [slice(0, limit)] and [limit - 1] convert it to the same integer,
    which is what the field holds here. *)
Module Filters.
Record t : Type := mk
  { level : string;
    service : string;
    search : string;
    limit : Z;
    page : Z }.
End Filters.

(** The [stats] state object.  [errorRate] is a percentage computed by the
    backend and only displayed. *)
Record Stats : Type := mkStats
  { INFO : Z;
    WARN : Z;
    ERROR : Z;
    total : Z;
    errorRate : Z }.

(** [response.data.pagination]. *)
Record Pagination : Type := mkPagination
  { pg_page : Z;
    pg_pages : Z;
    pg_total : Z }.

(** ** Texts that differ in case only *)

(** Two characters that are the same, or the same ASCII letter in upper
    and in lower case. *)
Definition isUpperChar (c : ascii) : bool :=
  (Nat.leb 65 (nat_of_ascii c) && Nat.leb (nat_of_ascii c) 90)%bool.

Definition sameLetter (a b : ascii) : bool :=
  (Ascii.eqb a b ||
   (isUpperChar a && Nat.eqb (nat_of_ascii b) (nat_of_ascii a + 32)) ||
   (isUpperChar b && Nat.eqb (nat_of_ascii a) (nat_of_ascii b + 32)))%bool.

Fixpoint equalIgnoringCase (s t : string) : bool :=
  match s, t with
  | EmptyString, EmptyString => true
  | String a s', String b t' => (sameLetter a b && equalIgnoringCase s' t')%bool
  | _, _ => false
  end.

(** [sub] occurs in [s] when case is ignored: some part of [s] equals
    [sub] up to the case of its letters. *)
Definition occursIgnoringCase (sub s : string) : Prop :=
  exists pre mid post,
    s = (pre ++ mid ++ post)%string /\ equalIgnoringCase mid sub = true.

(** ** The component *)

Section App.

(** [String.prototype.toLowerCase] on a text that has a character outside
    ASCII: the lower-case mapping of the Unicode tables with its context
    rules, which the component takes from the platform. *)
Variable unicodeToLowerCase : string -> string.

(** [String.prototype.toLowerCase]. *)
Definition toLowerCase (s : string) : string :=
  if JS.isAscii s then JS.asciiLowerCase s else unicodeToLowerCase s.

(** ** The filter predicate and the generic filter *)

(** [logMatchesFilters], lines 51-63. *)
Definition logMatchesFilters (filters : Filters.t) (log : Log.t) : bool :=
  if (JS.truthy (Filters.level filters) &&
      negb (String.eqb (Log.level log) (Filters.level filters)))%bool
  then false
  else if (JS.truthy (Filters.service filters) &&
           negb (String.eqb (Log.service log) (Filters.service filters)))%bool
  then false
  else if (JS.truthy (Filters.search filters) &&
           negb (JS.includes (toLowerCase (Log.message log))
                             (toLowerCase (Filters.search filters))))%bool
  then false
  else true.

(** [applyFilters], lines 66-74: the input array itself when no filter is
    active, [logsToFilter.filter(logMatchesFilters)] otherwise. *)
Definition applyFilters (filters : Filters.t) (logsToFilter : list Log.t)
  : list Log.t :=
  if (negb (JS.truthy (Filters.level filters)) &&
      negb (JS.truthy (Filters.service filters)) &&
      negb (JS.truthy (Filters.search filters)))%bool
  then logsToFilter
  else filter (logMatchesFilters filters) logsToFilter.

(** The body of the recompute effect, lines 107-108. *)
Definition recompute (filters : Filters.t) (logs : list Log.t) : list Log.t :=
  JS.slice0 (Filters.limit filters) (applyFilters filters logs).

(** The fast-path update of the visible list in the [newLog] handler,
    lines 87-90: [[newLog, ...prev.slice(0, filters.limit - 1)]]. *)
Definition fastPath (filters : Filters.t) (newLog : Log.t) (prev : list Log.t)
  : list Log.t :=
  newLog :: JS.slice0 (Filters.limit filters - 1) prev.

(** ** Component state *)

(** The [useState] cells of [App], lines 21-40, and the text the component
    writes with [console.error], oldest first.  [pagination] is [None] for
    the initial empty object. *)
Record State : Type := mkState
  { logs : list Log.t;
    filteredLogs : list Log.t;
    stats : Stats;
    filters : Filters.t;
    loading : bool;
    realTimeEnabled : bool;
    pagination : option Pagination;
    console : list string }.

Definition setLogs (v : list Log.t) (s : State) : State :=
  mkState v (filteredLogs s) (stats s) (filters s) (loading s)
          (realTimeEnabled s) (pagination s) (console s).

Definition setFilteredLogs (v : list Log.t) (s : State) : State :=
  mkState (logs s) v (stats s) (filters s) (loading s)
          (realTimeEnabled s) (pagination s) (console s).

Definition setStats (v : Stats) (s : State) : State :=
  mkState (logs s) (filteredLogs s) v (filters s) (loading s)
          (realTimeEnabled s) (pagination s) (console s).

Definition setFilters (v : Filters.t) (s : State) : State :=
  mkState (logs s) (filteredLogs s) (stats s) v (loading s)
          (realTimeEnabled s) (pagination s) (console s).

Definition setLoading (v : bool) (s : State) : State :=
  mkState (logs s) (filteredLogs s) (stats s) (filters s) v
          (realTimeEnabled s) (pagination s) (console s).

Definition setRealTimeEnabled (v : bool) (s : State) : State :=
  mkState (logs s) (filteredLogs s) (stats s) (filters s) (loading s)
          v (pagination s) (console s).

Definition setPagination (v : option Pagination) (s : State) : State :=
  mkState (logs s) (filteredLogs s) (stats s) (filters s) (loading s)
          (realTimeEnabled s) v (console s).

Definition consoleError (msg : string) (s : State) : State :=
  mkState (logs s) (filteredLogs s) (stats s) (filters s) (loading s)
          (realTimeEnabled s) (pagination s) (console s ++ [msg]).

Definition defaultFilters : Filters.t :=
  Filters.mk EmptyString EmptyString EmptyString 50 1.

(** The state of the first render. *)
Definition initial : State :=
  mkState [] [] (mkStats 0 0 0 0 0) defaultFilters false true None [].

(** ** Handlers *)

(** [response.data] of [GET /logs]. *)
Record Response : Type := mkResponse
  { resp_logs : list Log.t;
    resp_pagination : Pagination }.

(** The [[key]: value] of [handleFilterChange], with the value typed by
    its key. *)
Inductive Field : Type :=
| Level (value : string)
| Service (value : string)
| Search (value : string)
| Limit (value : Z)
| Page (value : Z).

Definition assign (kv : Field) (prev : Filters.t) : Filters.t :=
  match kv with
  | Level v =>
      Filters.mk v (Filters.service prev) (Filters.search prev)
                 (Filters.limit prev) (Filters.page prev)
  | Service v =>
      Filters.mk (Filters.level prev) v (Filters.search prev)
                 (Filters.limit prev) (Filters.page prev)
  | Search v =>
      Filters.mk (Filters.level prev) (Filters.service prev) v
                 (Filters.limit prev) (Filters.page prev)
  | Limit v =>
      Filters.mk (Filters.level prev) (Filters.service prev)
                 (Filters.search prev) v (Filters.page prev)
  | Page v =>
      Filters.mk (Filters.level prev) (Filters.service prev)
                 (Filters.search prev) (Filters.limit prev) v
  end.

(** [handleFilterChange], lines 160-166:
    [{ ...prev, [key]: value, page: 1 }]; the later [page: 1] wins. *)
Definition handleFilterChange (kv : Field) (prev : Filters.t) : Filters.t :=
  assign (Page 1) (assign kv prev).

(** [handlePageChange], lines 169-171. *)
Definition handlePageChange (newPage : Z) (prev : Filters.t) : Filters.t :=
  assign (Page newPage) prev.

(** The [newLog] socket handler, lines 80-93.  Both updaters read the
    state of before the event. *)
Definition onNewLog (newLog : Log.t) (s : State) : State :=
  if realTimeEnabled s then
    let s1 := setLogs (newLog :: logs s) s in
    if logMatchesFilters (filters s) newLog
    then setFilteredLogs (fastPath (filters s) newLog (filteredLogs s)) s1
    else s1
  else s.

(** The [statsUpdate] socket handler, lines 95-97. *)
Definition onStatsUpdate (newStats : Stats) (s : State) : State :=
  setStats newStats s.

(** [fetchLogs], lines 112-132, in its three moments: the call, the
    response, the rejection ([axios.get] rejects on a network error and on
    a status outside 2xx). *)
Definition fetchLogs_call (s : State) : State :=
  setLoading true s.

Definition fetchLogs_ok (response : Response) (s : State) : State :=
  setLoading false
    (setPagination (Some (resp_pagination response))
       (setFilteredLogs (resp_logs response)
          (setLogs (resp_logs response) s))).

Definition fetchLogs_error (s : State) : State :=
  setLoading false (consoleError "Error fetching logs:" s).

(** [fetchStats], lines 135-142. *)
Definition fetchStats_ok (data : Stats) (s : State) : State :=
  setStats data s.

Definition fetchStats_error (s : State) : State :=
  consoleError "Error fetching stats:" s.

(** What can happen to the mounted component: the two socket messages,
    the outcomes of [fetchLogs] and [fetchStats], the filter controls, the
    [setRealTimeEnabled] setter, and a tick of the polling interval, which
    exists only while real time is disabled and calls [fetchLogs]. *)
Inductive Event : Type :=
| NewLog (newLog : Log.t)
| StatsUpdate (newStats : Stats)
| FetchOk (response : Response)
| FetchError
| StatsOk (data : Stats)
| StatsError
| FilterChange (kv : Field)
| PageChange (newPage : Z)
| ClearFilters
| RealTime (enabled : bool)
| Poll.

(** The state updates an event makes, before React renders again. *)
Definition handler (e : Event) (s : State) : State :=
  match e with
  | NewLog newLog => onNewLog newLog s
  | StatsUpdate newStats => onStatsUpdate newStats s
  | FetchOk response => fetchLogs_ok response s
  | FetchError => fetchLogs_error s
  | StatsOk data => fetchStats_ok data s
  | StatsError => fetchStats_error s
  | FilterChange kv => setFilters (handleFilterChange kv (filters s)) s
  | PageChange newPage => setFilters (handlePageChange newPage (filters s)) s
  | ClearFilters => setFilters defaultFilters s
  | RealTime enabled => setRealTimeEnabled enabled s
  | Poll => if realTimeEnabled s then s else fetchLogs_call s
  end.

(** ** Effects *)

(** Which dependencies an event replaces.  Every [setLogs] and
    [setFilters] of the component passes a new array or object; a boolean
    cell changes only when its value does. *)
Definition logsReplaced (e : Event) (s : State) : bool :=
  match e with
  | NewLog _ => realTimeEnabled s
  | FetchOk _ => true
  | _ => false
  end.

Definition filtersReplaced (e : Event) : bool :=
  match e with
  | FilterChange _ | PageChange _ | ClearFilters => true
  | _ => false
  end.

Definition realTimeChanged (e : Event) (s : State) : bool :=
  match e with
  | RealTime enabled => negb (Bool.eqb enabled (realTimeEnabled s))
  | _ => false
  end.

(** The recompute effect, lines 106-109, dependencies [logs], [filters]. *)
Definition recomputeEffect (s : State) : State :=
  setFilteredLogs (recompute (filters s) (logs s)) s.

(** The load effect, lines 145-157, dependencies [fetchLogs] (new with
    every [filters]) and [realTimeEnabled]: it calls [fetchLogs]. *)
Definition loadEffect (s : State) : State :=
  fetchLogs_call s.

(** One event and the effects it triggers, in the order the component
    declares them: the state once the transition has settled. *)
Definition step (e : Event) (s : State) : State :=
  let s1 := handler e s in
  let s2 := if (logsReplaced e s || filtersReplaced e)%bool
            then recomputeEffect s1 else s1 in
  if (filtersReplaced e || realTimeChanged e s)%bool
  then loadEffect s2 else s2.

(** The state after the first render's effects. *)
Definition mounted : State :=
  loadEffect (recomputeEffect initial).

(** Filter changes a page-size select can make: a positive page size. *)
Definition allowed (e : Event) : Prop :=
  match e with
  | FilterChange (Limit v) => 0 < v
  | _ => True
  end.

Inductive reachable : State -> Prop :=
| reach_mounted : reachable mounted
| reach_step s e : reachable s -> allowed e -> reachable (step e s).

Fixpoint run (es : list Event) (s : State) : State :=
  match es with
  | [] => s
  | e :: es' => run es' (step e s)
  end.

(** ** The visible slice as the specification words it *)

(** The filter predicate applied to the full history in order, truncated
    to [limit] entries. *)
Definition visibleSlice_spec (filters : Filters.t) (history : list Log.t)
  : list Log.t :=
  firstn (Z.to_nat (Filters.limit filters))
         (filter (logMatchesFilters filters) history).

(** What "record [R] satisfies every set field of [F]" says. *)
Definition satisfies (R : Log.t) (F : Filters.t) : Prop :=
  (Filters.level F <> EmptyString -> Log.level R = Filters.level F) /\
  (Filters.service F <> EmptyString -> Log.service R = Filters.service F) /\
  (Filters.search F <> EmptyString ->
   exists pre post,
     toLowerCase (Log.message R) =
     (pre ++ toLowerCase (Filters.search F) ++ post)%string).

(** The same with the search read as "occurs in the message when case is
    ignored". *)
Definition satisfiesIgnoringCase (R : Log.t) (F : Filters.t) : Prop :=
  (Filters.level F <> EmptyString -> Log.level R = Filters.level F) /\
  (Filters.service F <> EmptyString -> Log.service R = Filters.service F) /\
  (Filters.search F <> EmptyString ->
   occursIgnoringCase (Filters.search F) (Log.message R)).

(** A state is settled when its visible list is the recompute of its
    history and its page size is positive. *)
Definition settled (s : State) : Prop :=
  0 < Filters.limit (filters s) /\
  filteredLogs s = recompute (filters s) (logs s).

(** Sample data for closed instances. *)
Definition errorLog : Log.t :=
  Log.mk "a1" "2024-01-01T00:00:00Z" "ERROR" "auth" "Auth failed".

Definition infoLog : Log.t :=
  Log.mk "a2" "2024-01-01T00:00:01Z" "INFO" "payments" "Payment accepted".

Definition warnLog : Log.t :=
  Log.mk "a3" "2024-01-01T00:00:02Z" "WARN" "auth" "Token about to expire".

(** ** The request, the controls and the rendering *)

(** A property value of the [filters] object as [Object.entries] hands it
    out: a string or a number. *)
Inductive Value : Type :=
| VString (s : string)
| VNumber (n : Z).

(** Truthiness: the empty string and the number 0 are falsy. *)
Definition truthyValue (v : Value) : bool :=
  match v with
  | VString s => JS.truthy s
  | VNumber n => negb (n =? 0)
  end.

(** The string [params.append] stores for a value: the string itself, the
    decimal numeral of an integer. *)
Definition toString (v : Value) : string :=
  match v with
  | VString s => s
  | VNumber n => NilZero.string_of_int (Z.to_int n)
  end.

(** [Object.entries(filters)]: the keys in the order the object literal
    of line 30 gives them, which the spread of [handleFilterChange]
    keeps. *)
Definition entries (filters : Filters.t) : list (string * Value) :=
  [ ("level"%string, VString (Filters.level filters));
    ("service"%string, VString (Filters.service filters));
    ("search"%string, VString (Filters.search filters));
    ("limit"%string, VNumber (Filters.limit filters));
    ("page"%string, VNumber (Filters.page filters)) ].

(** The query parameters [fetchLogs] builds, lines 115-119:
    [if (value) params.append(key, value)] over the entries. *)
Definition queryParams (filters : Filters.t) : list (string * string) :=
  fold_left
    (fun params kv =>
       if truthyValue (snd kv)
       then (params ++ [(fst kv, toString (snd kv))])%list
       else params)
    (entries filters) [].

(** [hasActiveFilters], line 200. *)
Definition hasActiveFilters (filters : Filters.t) : bool :=
  (JS.truthy (Filters.level filters) ||
   JS.truthy (Filters.service filters) ||
   JS.truthy (Filters.search filters))%bool.

(** The message under the table, lines 364-370: shown when the visible
    list is empty and nothing is loading. *)
Definition noLogsMessage (s : State) : option string :=
  if (Nat.eqb (List.length (filteredLogs s)) 0 && negb (loading s))%bool
  then Some (if hasActiveFilters (filters s)
             then "No logs match the current filters."%string
             else "No logs available."%string)
  else None.

(** The pagination bar, lines 374-396: rendered when [pagination.pages > 1]
    (never for the initial empty object), with a [Previous] button
    disabled on page 1 and a [Next] button disabled on the last page. *)
Definition paginationShown (s : State) : bool :=
  match pagination s with
  | Some p => 1 <? pg_pages p
  | None => false
  end.

Definition previousDisabled (p : Pagination) : bool :=
  pg_page p =? 1.

Definition nextDisabled (p : Pagination) : bool :=
  pg_page p =? pg_pages p.

(** The buttons of the component: the two of the pagination bar and
    [Clear Filters], lines 306-321, rendered when [hasActiveFilters]. *)
Inductive Button : Type :=
| Previous
| Next
| ClearFiltersButton.

(** What a click does: the event of the button's [onClick], or nothing
    when the button is not rendered or is disabled. *)
Definition click (b : Button) (s : State) : option Event :=
  match b with
  | Previous =>
      match pagination s with
      | Some p =>
          if (paginationShown s && negb (previousDisabled p))%bool
          then Some (PageChange (pg_page p - 1)) else None
      | None => None
      end
  | Next =>
      match pagination s with
      | Some p =>
          if (paginationShown s && negb (nextDisabled p))%bool
          then Some (PageChange (pg_page p + 1)) else None
      | None => None
      end
  | ClearFiltersButton =>
      if hasActiveFilters (filters s) then Some ClearFilters else None
  end.

(** A click and the transition it starts. *)
Definition clickStep (b : Button) (s : State) : State :=
  match click b s with
  | Some e => step e s
  | None => s
  end.

(** [getLevelColor], lines 179-190. *)
Definition getLevelColor (level : string) : string :=
  if String.eqb level "INFO" then "#4CAF50"
  else if String.eqb level "WARN" then "#FF9800"
  else if String.eqb level "ERROR" then "#F44336"
  else "#757575".

(** An entry of [chartData], lines 193-197. *)
Record ChartEntry : Type := mkChartEntry
  { name : string;
    count : Z;
    color : string }.

Definition chartData (stats : Stats) : list ChartEntry :=
  [ mkChartEntry "INFO" (INFO stats) "#4CAF50";
    mkChartEntry "WARN" (WARN stats) "#FF9800";
    mkChartEntry "ERROR" (ERROR stats) "#F44336" ].

(** Two [[key]: value] pairs with the same key. *)
Definition sameKey (a b : Field) : bool :=
  match a, b with
  | Level _, Level _ | Service _, Service _ | Search _, Search _
  | Limit _, Limit _ | Page _, Page _ => true
  | _, _ => false
  end.

(** The events that write the [stats] cell, and the two failures. *)
Definition touchesStats (e : Event) : bool :=
  match e with
  | StatsUpdate _ | StatsOk _ => true
  | _ => false
  end.

Definition isFailure (e : Event) : bool :=
  match e with
  | FetchError | StatsError => true
  | _ => false
  end.

(** * Properties *)

(** ** Built-ins *)

Section Builtins.

Local Open Scope string_scope.

Lemma truthy_iff (s : string) : JS.truthy s = true <-> s <> "".
Proof.
  destruct s; simpl; split; intro H; congruence.
Qed.

Lemma truthy_false_iff (s : string) : JS.truthy s = false <-> s = "".
Proof.
  destruct s; simpl; split; intro H; congruence.
Qed.

Lemma startsWith_iff (sub s : string) :
  JS.startsWith sub s = true <-> exists post, s = sub ++ post.
Proof.
  revert s; induction sub as [|a sub IH]; intro s; simpl.
  - split; [intros _; now exists s | reflexivity].
  - destruct s as [|b s].
    + split; [discriminate | intros [post H]; discriminate].
    + rewrite andb_true_iff, Ascii.eqb_eq, IH. split.
      * intros [-> [post ->]]. now exists post.
      * intros [post H]. injection H as -> ->. split; [reflexivity|].
        now exists post.
Qed.

Lemma includes_iff (s sub : string) :
  JS.includes s sub = true <-> exists pre post, s = pre ++ sub ++ post.
Proof.
  induction s as [|c s IH].
  - simpl. rewrite orb_false_r, startsWith_iff. split.
    + intros [post H]. now exists "", post.
    + intros [pre [post H]]. destruct pre as [|p pre]; [|discriminate].
      now exists post.
  - change (JS.includes (String c s) sub)
      with (JS.startsWith sub (String c s) || JS.includes s sub)%bool.
    rewrite orb_true_iff, IH, startsWith_iff. split.
    + intros [[post H] | [pre [post H]]].
      * now exists "", post.
      * exists (String c pre), post. simpl. now rewrite H.
    + intros [pre [post H]]. destruct pre as [|p pre].
      * left. now exists post.
      * right. simpl in H. injection H as _ H. now exists pre, post.
Qed.

End Builtins.

Lemma slice0_nonneg {A : Type} (e : Z) (arr : list A) :
  0 <= e -> JS.slice0 e arr = firstn (Z.to_nat e) arr.
Proof.
  intro He. unfold JS.slice0.
  destruct (Z.ltb_spec e 0) as [Hlt | _]; [lia|].
  destruct (Z.le_ge_cases e (Z.of_nat (List.length arr))) as [Hle | Hge].
  - now rewrite Z.min_l.
  - rewrite Z.min_r, Nat2Z.id by assumption.
    rewrite firstn_all. symmetry. apply firstn_all2. lia.
Qed.

Lemma slice0_length {A : Type} (e : Z) (arr : list A) :
  0 <= e -> Z.of_nat (List.length (JS.slice0 e arr)) <= e.
Proof.
  intro He. rewrite slice0_nonneg by assumption.
  pose proof (firstn_le_length (Z.to_nat e) arr). lia.
Qed.

Lemma firstn_incl {A : Type} (n : nat) (l : list A) (x : A) :
  In x (firstn n l) -> In x l.
Proof.
  revert l; induction n as [|n IH]; intros [|a l]; simpl; try tauto.
  intros [H | H]; [now left | right; now apply IH].
Qed.

Lemma slice0_incl {A : Type} (e : Z) (arr : list A) (x : A) :
  In x (JS.slice0 e arr) -> In x arr.
Proof.
  unfold JS.slice0. apply firstn_incl.
Qed.

(** ** The filter predicate *)

Lemma logMatchesFilters_true_iff (F : Filters.t) (R : Log.t) :
  logMatchesFilters F R = true <->
  (JS.truthy (Filters.level F) = true ->
   String.eqb (Log.level R) (Filters.level F) = true) /\
  (JS.truthy (Filters.service F) = true ->
   String.eqb (Log.service R) (Filters.service F) = true) /\
  (JS.truthy (Filters.search F) = true ->
   JS.includes (toLowerCase (Log.message R))
               (toLowerCase (Filters.search F)) = true).
Proof.
  unfold logMatchesFilters.
  destruct (JS.truthy (Filters.level F)),
           (String.eqb (Log.level R) (Filters.level F)),
           (JS.truthy (Filters.service F)),
           (String.eqb (Log.service R) (Filters.service F)),
           (JS.truthy (Filters.search F)),
           (JS.includes _ _); simpl; intuition congruence.
Qed.

Lemma no_filter_matches (F : Filters.t) (R : Log.t) :
  JS.truthy (Filters.level F) = false ->
  JS.truthy (Filters.service F) = false ->
  JS.truthy (Filters.search F) = false ->
  logMatchesFilters F R = true.
Proof.
  intros Hl Hs Hq. unfold logMatchesFilters. now rewrite Hl, Hs, Hq.
Qed.

(** [applyFilters] is [filter] with the predicate, shortcut included. *)
Lemma applyFilters_filter (F : Filters.t) (l : list Log.t) :
  applyFilters F l = filter (logMatchesFilters F) l.
Proof.
  unfold applyFilters.
  destruct (JS.truthy (Filters.level F)) eqn:Hl; simpl; [reflexivity|].
  destruct (JS.truthy (Filters.service F)) eqn:Hs; simpl; [reflexivity|].
  destruct (JS.truthy (Filters.search F)) eqn:Hq; simpl; [reflexivity|].
  symmetry. apply forallb_filter_id, forallb_forall.
  intros R _. now apply no_filter_matches.
Qed.

Lemma recompute_spec (F : Filters.t) (l : list Log.t) :
  0 <= Filters.limit F -> recompute F l = visibleSlice_spec F l.
Proof.
  intro H. unfold recompute, visibleSlice_spec.
  now rewrite applyFilters_filter, slice0_nonneg.
Qed.

Lemma recompute_matches (F : Filters.t) (l : list Log.t) (R : Log.t) :
  In R (recompute F l) -> In R l /\ logMatchesFilters F R = true.
Proof.
  unfold recompute. intro H. apply slice0_incl in H.
  rewrite applyFilters_filter in H. now apply filter_In.
Qed.

(** *** Lower case on ASCII text *)

Lemma toLowerCase_ascii (s : string) :
  JS.isAscii s = true -> toLowerCase s = JS.asciiLowerCase s.
Proof.
  unfold toLowerCase. now intros ->.
Qed.

(** A test of all pairs of characters decides a property of them. *)
Lemma ascii_pairs (P : ascii -> ascii -> bool) :
  forallb (fun n => forallb (fun m => P (ascii_of_nat n) (ascii_of_nat m))
                            (seq 0 256))
          (seq 0 256) = true ->
  forall a b, P a b = true.
Proof.
  intros H a b.
  assert (Hin : forall c, In (nat_of_ascii c) (seq 0 256)).
  { intro c. apply in_seq. pose proof (nat_ascii_bounded c). lia. }
  rewrite forallb_forall in H. specialize (H _ (Hin a)).
  rewrite forallb_forall in H. specialize (H _ (Hin b)).
  now rewrite !ascii_nat_embedding in H.
Qed.

Lemma asciiLowerChar_sameLetter (a b : ascii) :
  Ascii.eqb (JS.asciiLowerChar a) (JS.asciiLowerChar b) = sameLetter a b.
Proof.
  apply Bool.eqb_prop.
  apply (ascii_pairs
           (fun a b => Bool.eqb (Ascii.eqb (JS.asciiLowerChar a)
                                           (JS.asciiLowerChar b))
                                (sameLetter a b))).
  vm_compute. reflexivity.
Qed.

Lemma equalIgnoringCase_iff (s t : string) :
  equalIgnoringCase s t = true <->
  JS.asciiLowerCase s = JS.asciiLowerCase t.
Proof.
  revert t; induction s as [|a s IH]; intros [|b t]; cbn;
    split; intro H; try congruence.
  - apply andb_true_iff in H. destruct H as [Hc Hs].
    rewrite <- asciiLowerChar_sameLetter in Hc. apply Ascii.eqb_eq in Hc.
    rewrite Hc. f_equal. now apply IH.
  - injection H as Hc Hs. apply andb_true_iff. split.
    + rewrite <- asciiLowerChar_sameLetter. now apply Ascii.eqb_eq.
    + now apply IH.
Qed.

Lemma asciiLowerCase_app (s t : string) :
  JS.asciiLowerCase (s ++ t)
  = (JS.asciiLowerCase s ++ JS.asciiLowerCase t)%string.
Proof.
  induction s as [|c s IH]; cbn; [reflexivity | now rewrite IH].
Qed.

Lemma asciiLowerCase_split (m x y : string) :
  JS.asciiLowerCase m = (x ++ y)%string ->
  exists a b, m = (a ++ b)%string /\
              JS.asciiLowerCase a = x /\ JS.asciiLowerCase b = y.
Proof.
  revert m; induction x as [|c x IH]; intros m H.
  - exists EmptyString, m. cbn. auto.
  - destruct m as [|d m]; cbn in H; [discriminate|].
    injection H as Hc H. destruct (IH m H) as (a & b & -> & Ha & Hb).
    exists (String d a), b. cbn. rewrite Hc, Ha. auto.
Qed.

(** The lower-cased search occurs in the lower-cased message exactly when
    the search occurs in the message with case ignored. *)
Lemma includes_lower_iff (m q : string) :
  JS.includes (JS.asciiLowerCase m) (JS.asciiLowerCase q) = true <->
  occursIgnoringCase q m.
Proof.
  rewrite includes_iff. unfold occursIgnoringCase. split.
  - intros (pre' & post' & H).
    apply asciiLowerCase_split in H.
    destruct H as (pre & rest & -> & _ & H).
    apply asciiLowerCase_split in H.
    destruct H as (mid & post & -> & Hmid & _).
    exists pre, mid, post. split; [reflexivity|].
    now apply equalIgnoringCase_iff.
  - intros (pre & mid & post & -> & H). apply equalIgnoringCase_iff in H.
    exists (JS.asciiLowerCase pre), (JS.asciiLowerCase post).
    now rewrite !asciiLowerCase_app, H.
Qed.

(** C3.  [logMatchesFilters] is [true] exactly on the records that satisfy
    every set field of the filter, all of them together: [level] and
    [service] by equality, [search] as a substring of the message after
    [toLowerCase] has been applied to both; an empty field constrains
    nothing.  On ASCII text this is the search occurring in the message
    with the case of letters ignored.  Being a function of its two
    arguments it is deterministic and changes no state. *)
Theorem logMatchesFilters_iff_satisfies (R : Log.t) (F : Filters.t) :
  (logMatchesFilters F R = true <-> satisfies R F) /\
  (JS.isAscii (Log.message R) = true ->
   JS.isAscii (Filters.search F) = true ->
   (logMatchesFilters F R = true <-> satisfiesIgnoringCase R F)).
Proof.
  split.
  - rewrite logMatchesFilters_true_iff. unfold satisfies.
    rewrite !truthy_iff, !String.eqb_eq, includes_iff. reflexivity.
  - intros Hm Hq. rewrite logMatchesFilters_true_iff.
    unfold satisfiesIgnoringCase.
    rewrite (toLowerCase_ascii _ Hm), (toLowerCase_ascii _ Hq).
    rewrite !truthy_iff, !String.eqb_eq, includes_lower_iff. reflexivity.
Qed.

(** ** The two derivations of the visible slice *)

Lemma recompute_length (F : Filters.t) (l : list Log.t) :
  0 <= Filters.limit F ->
  Z.of_nat (List.length (recompute F l)) <= Filters.limit F.
Proof.
  intro H. unfold recompute. now apply slice0_length.
Qed.

Lemma fastPath_length (F : Filters.t) (newLog : Log.t) (prev : list Log.t) :
  0 < Filters.limit F ->
  Z.of_nat (List.length (fastPath F newLog prev)) <= Filters.limit F.
Proof.
  intro H. unfold fastPath.
  pose proof (slice0_length (Filters.limit F - 1) prev ltac:(lia)) as Hs.
  cbn [List.length]. lia.
Qed.

(** A matching record prepended to the recomputed slice of a history, cut
    by the fast path, is the recomputed slice of the longer history. *)
Lemma fastPath_recompute (F : Filters.t) (newLog : Log.t)
      (history : list Log.t) :
  0 < Filters.limit F ->
  logMatchesFilters F newLog = true ->
  fastPath F newLog (recompute F history) = recompute F (newLog :: history).
Proof.
  intros Hlim Hm. unfold fastPath, recompute.
  rewrite !applyFilters_filter. cbn [filter]. rewrite Hm.
  rewrite !slice0_nonneg by lia.
  replace (Z.to_nat (Filters.limit F))
    with (S (Z.to_nat (Filters.limit F - 1))) by lia.
  rewrite firstn_cons, firstn_firstn. f_equal. f_equal. lia.
Qed.

(** A record the filter rejects leaves the recomputed slice as it was. *)
Lemma recompute_skip (F : Filters.t) (newLog : Log.t) (history : list Log.t) :
  logMatchesFilters F newLog = false ->
  recompute F (newLog :: history) = recompute F history.
Proof.
  intro Hm. unfold recompute. rewrite !applyFilters_filter.
  cbn [filter]. now rewrite Hm.
Qed.

(** ** Settled states *)

Lemma step_logs (e : Event) (s : State) :
  logs (step e s) = logs (handler e s).
Proof.
  unfold step.
  destruct (logsReplaced e s || filtersReplaced e)%bool,
           (filtersReplaced e || realTimeChanged e s)%bool; reflexivity.
Qed.

Lemma step_filters (e : Event) (s : State) :
  filters (step e s) = filters (handler e s).
Proof.
  unfold step.
  destruct (logsReplaced e s || filtersReplaced e)%bool,
           (filtersReplaced e || realTimeChanged e s)%bool; reflexivity.
Qed.

Lemma step_filteredLogs (e : Event) (s : State) :
  filteredLogs (step e s) =
  if (logsReplaced e s || filtersReplaced e)%bool
  then recompute (filters (handler e s)) (logs (handler e s))
  else filteredLogs (handler e s).
Proof.
  unfold step.
  destruct (logsReplaced e s || filtersReplaced e)%bool,
           (filtersReplaced e || realTimeChanged e s)%bool; reflexivity.
Qed.

(** An event that replaces neither [logs] nor [filters] leaves both, and
    the visible list, as they were. *)
Lemma handler_frame (e : Event) (s : State) :
  (logsReplaced e s || filtersReplaced e)%bool = false ->
  logs (handler e s) = logs s /\
  filters (handler e s) = filters s /\
  filteredLogs (handler e s) = filteredLogs s.
Proof.
  destruct e; simpl; try discriminate; try (intros _; now repeat split).
  - unfold onNewLog. rewrite orb_false_r. intros ->. now repeat split.
  - intros _. now destruct (realTimeEnabled s).
Qed.

Lemma handler_limit (e : Event) (s : State) :
  allowed e ->
  0 < Filters.limit (filters s) ->
  0 < Filters.limit (filters (handler e s)).
Proof.
  destruct e as [r| | | | | |kv| | | |]; simpl; intros Ha Hs;
    try assumption; try lia.
  - unfold onNewLog.
    destruct (realTimeEnabled s); [|assumption].
    now destruct (logMatchesFilters (filters s) r).
  - destruct kv; simpl; assumption.
  - now destruct (realTimeEnabled s).
Qed.

Lemma step_settled (e : Event) (s : State) :
  allowed e -> settled s -> settled (step e s).
Proof.
  intros Ha [Hlim Hvis]. unfold settled.
  rewrite step_filters, step_logs, step_filteredLogs.
  split; [now apply handler_limit|].
  destruct (logsReplaced e s || filtersReplaced e)%bool eqn:Hd;
    [reflexivity|].
  destruct (handler_frame e s Hd) as (-> & -> & ->). exact Hvis.
Qed.

Lemma mounted_settled : settled mounted.
Proof.
  split; [reflexivity | reflexivity].
Qed.

Lemma reachable_settled (s : State) : reachable s -> settled s.
Proof.
  induction 1 as [|s e _ IH Ha].
  - exact mounted_settled.
  - now apply step_settled.
Qed.

(** The four transitions that replace [logs] or [filters] settle the
    visible list whatever it was before. *)
Lemma step_recomputes (e : Event) (s : State) :
  (logsReplaced e s || filtersReplaced e)%bool = true ->
  filteredLogs (step e s) = recompute (filters (step e s)) (logs (step e s)).
Proof.
  intro Hd. now rewrite step_filteredLogs, step_filters, step_logs, Hd.
Qed.

Lemma reachable_run (es : list Event) (s : State) :
  reachable s -> Forall allowed es -> reachable (run es s).
Proof.
  revert s; induction es as [|e es IH]; intros s Hs Hes; simpl.
  - exact Hs.
  - inversion Hes; subst. apply IH; [now apply reach_step | assumption].
Qed.

(** ** The claims *)

(** C1.  In every state the component reaches (the mounted state, then any
    sequence of settled transitions: filter change, page change, snapshot,
    push event and the others), the visible list [filteredLogs] is the
    filter predicate applied to the full history [logs] in its newest-first
    order, truncated to [limit] entries. *)
Theorem visible_slice_invariant (s : State) :
  reachable s ->
  filteredLogs s = visibleSlice_spec (filters s) (logs s).
Proof.
  intro Hr. destruct (reachable_settled s Hr) as [Hlim Hvis].
  rewrite Hvis. apply recompute_spec. lia.
Qed.

(** C2.  When the real-time handler receives a record that matches the
    active filter, and the visible list was the generic recompute of the
    history, the fast-path update (the record in front, at most [limit]
    entries kept) gives the generic recompute of the new history: the
    recompute effect that follows changes nothing. *)
Theorem newLog_fast_path_consistent (s : State) (newLog : Log.t) :
  0 < Filters.limit (filters s) ->
  realTimeEnabled s = true ->
  logMatchesFilters (filters s) newLog = true ->
  filteredLogs s = recompute (filters s) (logs s) ->
  let s' := onNewLog newLog s in
  filteredLogs s' = fastPath (filters s) newLog (filteredLogs s) /\
  filteredLogs s' = recompute (filters s') (logs s') /\
  filteredLogs s' = visibleSlice_spec (filters s') (logs s') /\
  step (NewLog newLog) s = s'.
Proof.
  intros Hlim Hrt Hm Hvis. cbv zeta.
  assert (Hfast : filteredLogs (onNewLog newLog s) =
                  fastPath (filters s) newLog (filteredLogs s)).
  { unfold onNewLog. now rewrite Hrt, Hm. }
  assert (Hl : logs (onNewLog newLog s) = newLog :: logs s).
  { unfold onNewLog. now rewrite Hrt, Hm. }
  assert (Hf : filters (onNewLog newLog s) = filters s).
  { unfold onNewLog. now rewrite Hrt, Hm. }
  assert (Hrec : filteredLogs (onNewLog newLog s) =
                 recompute (filters (onNewLog newLog s))
                           (logs (onNewLog newLog s))).
  { rewrite Hfast, Hl, Hf, Hvis. now apply fastPath_recompute. }
  repeat split.
  - exact Hfast.
  - exact Hrec.
  - rewrite Hrec. apply recompute_spec. rewrite Hf. lia.
  - unfold step. cbn [handler logsReplaced filtersReplaced realTimeChanged].
    rewrite Hrt. cbn [orb]. unfold recomputeEffect. rewrite <- Hrec.
    now destruct (onNewLog newLog s).
Qed.

(** C4.  A successful snapshot fetch replaces the full history, the visible
    list and the pagination with the response, whatever the state held
    before; once the recompute effect has run the history and pagination
    are still the response's and the visible list is computed from the
    response alone, so every record that came only from push events is
    gone. *)
Theorem fetchLogs_ok_replaces (s : State) (response : Response) :
  let s1 := fetchLogs_ok response s in
  let s2 := step (FetchOk response) s in
  logs s1 = resp_logs response /\
  filteredLogs s1 = resp_logs response /\
  pagination s1 = Some (resp_pagination response) /\
  logs s2 = resp_logs response /\
  pagination s2 = Some (resp_pagination response) /\
  filteredLogs s2 = recompute (filters s) (resp_logs response) /\
  (forall R, ~ In R (resp_logs response) ->
             ~ In R (logs s2) /\ ~ In R (filteredLogs s2)).
Proof.
  cbv zeta. do 6 (split; [reflexivity|]).
  intros R Hout. split; [exact Hout|].
  intro Hin. apply Hout. cbn in Hin.
  now apply recompute_matches in Hin.
Qed.

(** C5.  While real time is disabled a [newLog] event changes nothing: the
    state after the handler, and after the effects, is the state before,
    and the events that follow run as if it had never arrived. *)
Theorem newLog_dropped_when_disabled (s : State) (newLog : Log.t) :
  realTimeEnabled s = false ->
  handler (NewLog newLog) s = s /\
  step (NewLog newLog) s = s /\
  forall later, run (NewLog newLog :: later) s = run later s.
Proof.
  intro Hrt.
  assert (Hh : handler (NewLog newLog) s = s).
  { simpl. unfold onNewLog. now rewrite Hrt. }
  assert (Hs : step (NewLog newLog) s = s).
  { unfold step. rewrite Hh. simpl. now rewrite Hrt. }
  repeat split; try assumption.
  intro later. simpl. now rewrite Hs.
Qed.

(** C6.  While real time is enabled a [newLog] event puts the record at
    the front of the full history whether or not it matches the filter; a
    record that does not match is left out of the visible list, which
    stays what it was. *)
Theorem newLog_prepended_when_enabled (s : State) (newLog : Log.t) :
  realTimeEnabled s = true ->
  logs (handler (NewLog newLog) s) = newLog :: logs s /\
  logs (step (NewLog newLog) s) = newLog :: logs s /\
  (logMatchesFilters (filters s) newLog = false ->
   filteredLogs (handler (NewLog newLog) s) = filteredLogs s /\
   filteredLogs (step (NewLog newLog) s) = recompute (filters s) (logs s) /\
   ~ In newLog (filteredLogs (step (NewLog newLog) s))).
Proof.
  intro Hrt.
  assert (Hl : logs (handler (NewLog newLog) s) = newLog :: logs s).
  { simpl. unfold onNewLog. rewrite Hrt.
    now destruct (logMatchesFilters (filters s) newLog). }
  assert (Hf : filters (handler (NewLog newLog) s) = filters s).
  { simpl. unfold onNewLog. rewrite Hrt.
    now destruct (logMatchesFilters (filters s) newLog). }
  split; [exact Hl|].
  split; [now rewrite step_logs|].
  intro Hm.
  assert (Hvis : filteredLogs (step (NewLog newLog) s) =
                 recompute (filters s) (logs s)).
  { rewrite step_filteredLogs. cbn [logsReplaced filtersReplaced].
    rewrite Hrt. cbn [orb]. rewrite Hl, Hf. now apply recompute_skip. }
  split; [|split].
  - simpl. unfold onNewLog. now rewrite Hrt, Hm.
  - exact Hvis.
  - rewrite Hvis. intro Hin. apply recompute_matches in Hin.
    destruct Hin as [_ Hin]. congruence.
Qed.

(** C7, amended.  In every state the component settles in (a handler
    followed by the effects it triggers) the visible list has at most
    [limit] entries; so has the result of the generic recompute on any
    history, and so has the result of the fast-path update on any visible
    list, and the visible list right after the [newLog] handler.  Between
    the page that [fetchLogs] writes, or a lowering of the limit, and the
    recompute effect the list can be longer. *)
Theorem visible_length_bounded (s : State) :
  reachable s ->
  Z.of_nat (List.length (filteredLogs s)) <= Filters.limit (filters s) /\
  (forall history,
      Z.of_nat (List.length (recompute (filters s) history))
      <= Filters.limit (filters s)) /\
  (forall newLog prev,
      Z.of_nat (List.length (fastPath (filters s) newLog prev))
      <= Filters.limit (filters s)) /\
  (forall newLog,
      Z.of_nat (List.length (filteredLogs (handler (NewLog newLog) s)))
      <= Filters.limit (filters (handler (NewLog newLog) s))).
Proof.
  intro Hr. destruct (reachable_settled s Hr) as [Hlim Hvis].
  assert (Hcur : Z.of_nat (List.length (filteredLogs s))
                 <= Filters.limit (filters s)).
  { rewrite Hvis. apply recompute_length. lia. }
  split; [exact Hcur|].
  split; [intro history; apply recompute_length; lia|].
  split; [intros newLog prev; now apply fastPath_length|].
  intro newLog. simpl. unfold onNewLog.
  destruct (realTimeEnabled s); [|exact Hcur].
  destruct (logMatchesFilters (filters s) newLog); [|exact Hcur].
  cbn [filteredLogs filters setFilteredLogs setLogs].
  now apply fastPath_length.
Qed.

(** C8.  When the snapshot fetch fails, the failure is written to the
    console, the loading flag is cleared, and the history, the visible
    list, the pagination, the stats, the filters and the mode are those of
    before. *)
Theorem fetchLogs_error_keeps_data (s : State) :
  let s' := step FetchError s in
  console s' = (console s ++ ["Error fetching logs:"%string])%list /\
  loading s' = false /\
  logs s' = logs s /\
  filteredLogs s' = filteredLogs s /\
  pagination s' = pagination s /\
  stats s' = stats s /\
  filters s' = filters s /\
  realTimeEnabled s' = realTimeEnabled s.
Proof.
  cbv zeta. repeat split; reflexivity.
Qed.

(** C9.  [handleFilterChange] with [level], [service], [search] or [limit]
    gives a filter whose [page] is 1, whose changed field holds the new
    value and whose other fields are those of before; the component's
    [filters] after the transition is that filter. *)
Theorem handleFilterChange_resets_page (kv : Field) (prev : Filters.t)
        (s : State) :
  let next := handleFilterChange kv prev in
  Filters.page next = 1 /\
  Filters.page (filters (step (FilterChange kv) s)) = 1 /\
  filters (step (FilterChange kv) s) = handleFilterChange kv (filters s) /\
  match kv with
  | Level v =>
      Filters.level next = v /\
      Filters.service next = Filters.service prev /\
      Filters.search next = Filters.search prev /\
      Filters.limit next = Filters.limit prev
  | Service v =>
      Filters.level next = Filters.level prev /\
      Filters.service next = v /\
      Filters.search next = Filters.search prev /\
      Filters.limit next = Filters.limit prev
  | Search v =>
      Filters.level next = Filters.level prev /\
      Filters.service next = Filters.service prev /\
      Filters.search next = v /\
      Filters.limit next = Filters.limit prev
  | Limit v =>
      Filters.level next = Filters.level prev /\
      Filters.service next = Filters.service prev /\
      Filters.search next = Filters.search prev /\
      Filters.limit next = v
  | Page _ =>
      Filters.level next = Filters.level prev /\
      Filters.service next = Filters.service prev /\
      Filters.search next = Filters.search prev /\
      Filters.limit next = Filters.limit prev
  end.
Proof.
  cbv zeta. destruct kv; repeat split; reflexivity.
Qed.

(** C10.  A [statsUpdate] message replaces the displayed stats with the
    message, with real time enabled and with it disabled, and changes
    nothing else. *)
Theorem statsUpdate_unconditional (s : State) (newStats : Stats)
        (enabled : bool) :
  stats (step (StatsUpdate newStats) s) = newStats /\
  step (StatsUpdate newStats) s = setStats newStats s /\
  stats (step (StatsUpdate newStats) (setRealTimeEnabled enabled s))
  = newStats.
Proof.
  repeat split; reflexivity.
Qed.

(** * Further properties of the component *)

(** ** The visible list *)

Lemma slice0_prefix {A : Type} (e : Z) (arr : list A) :
  exists rest, arr = (JS.slice0 e arr ++ rest)%list.
Proof.
  unfold JS.slice0. eexists. symmetry. apply firstn_skipn.
Qed.

Lemma slice0_all {A : Type} (e : Z) (arr : list A) :
  Z.of_nat (List.length arr) <= e -> JS.slice0 e arr = arr.
Proof.
  intro H. rewrite slice0_nonneg by lia. apply firstn_all2. lia.
Qed.

Lemma filter_all_true {A : Type} (f : A -> bool) (l : list A) :
  Forall (fun x => f x = true) l -> filter f l = l.
Proof.
  intro H. apply forallb_filter_id, forallb_forall.
  now apply Forall_forall.
Qed.

Lemma recompute_Forall (F : Filters.t) (l : list Log.t) :
  Forall (fun R => logMatchesFilters F R = true) (recompute F l).
Proof.
  apply Forall_forall. intros R H. now apply recompute_matches in H.
Qed.

(** For any limit, zero and negative ones included, the recomputed list
    is a prefix of the filtered history: it shows matching records of the
    history only, in the history's order, with no gap. *)
Theorem recompute_is_prefix (F : Filters.t) (history : list Log.t) :
  exists rest,
    filter (logMatchesFilters F) history = (recompute F history ++ rest)%list.
Proof.
  unfold recompute. rewrite applyFilters_filter. apply slice0_prefix.
Qed.

(** Recomputing the visible list from the visible list itself gives it
    back, for a limit that is not negative. *)
Theorem recompute_idempotent (F : Filters.t) (history : list Log.t) :
  0 <= Filters.limit F ->
  recompute F (recompute F history) = recompute F history.
Proof.
  intro H.
  pose proof (recompute_Forall F history) as Hall.
  pose proof (recompute_length F history H) as Hlen.
  unfold recompute at 1. rewrite applyFilters_filter.
  rewrite (filter_all_true _ _ Hall). now apply slice0_all.
Qed.

(** When every record of a snapshot matches the active filter and the
    snapshot is no longer than the limit, the recompute effect that runs
    after [fetchLogs] changes nothing: the settled state is the state the
    handler left, and the visible list is the snapshot. *)
Theorem fetchLogs_ok_recompute_noop (s : State) (response : Response) :
  Forall (fun R => logMatchesFilters (filters s) R = true)
         (resp_logs response) ->
  Z.of_nat (List.length (resp_logs response)) <= Filters.limit (filters s) ->
  step (FetchOk response) s = fetchLogs_ok response s /\
  filteredLogs (step (FetchOk response) s) = resp_logs response.
Proof.
  intros Hall Hlen.
  assert (Hrec : recompute (filters s) (resp_logs response)
                 = resp_logs response).
  { unfold recompute. rewrite applyFilters_filter.
    rewrite (filter_all_true _ _ Hall). now apply slice0_all. }
  unfold step. cbn [logsReplaced filtersReplaced realTimeChanged orb].
  unfold recomputeEffect, fetchLogs_ok, setLoading, setPagination,
    setFilteredLogs, setLogs.
  cbn [logs filteredLogs stats filters loading realTimeEnabled pagination
       console handler].
  unfold fetchLogs_ok, setLoading, setPagination, setFilteredLogs, setLogs.
  cbn [logs filteredLogs stats filters loading realTimeEnabled pagination
       console].
  rewrite Hrec. split; reflexivity.
Qed.

(** ** Push events *)

Lemma step_NewLog_enabled (s : State) (newLog : Log.t) :
  realTimeEnabled s = true ->
  step (NewLog newLog) s =
  mkState (newLog :: logs s) (recompute (filters s) (newLog :: logs s))
          (stats s) (filters s) (loading s) true (pagination s) (console s).
Proof.
  intro Hrt. unfold step.
  cbn [handler logsReplaced filtersReplaced realTimeChanged].
  rewrite Hrt. cbn [orb]. unfold onNewLog. rewrite Hrt.
  destruct (logMatchesFilters (filters s) newLog);
    unfold recomputeEffect, setFilteredLogs, setLogs;
    cbn [logs filteredLogs stats filters loading realTimeEnabled pagination
         console]; now rewrite Hrt.
Qed.

(** In real-time mode the state a push settles in does not depend on the
    visible list of before: the fast-path update never shows in it. *)
Theorem newLog_settles_from_history_only (s : State) (visible : list Log.t)
        (newLog : Log.t) :
  realTimeEnabled s = true ->
  step (NewLog newLog) (setFilteredLogs visible s) = step (NewLog newLog) s.
Proof.
  intro Hrt. rewrite !step_NewLog_enabled by assumption. reflexivity.
Qed.

(** In real-time mode a run of pushes puts all of them in the history,
    the last one first, in front of what was there: nothing is evicted and
    the history grows by one record per push. *)
Theorem pushes_accumulate (pushed : list Log.t) (s : State) :
  realTimeEnabled s = true ->
  logs (run (map NewLog pushed) s) = (rev pushed ++ logs s)%list /\
  List.length (logs (run (map NewLog pushed) s))
  = (List.length pushed + List.length (logs s))%nat /\
  realTimeEnabled (run (map NewLog pushed) s) = true.
Proof.
  revert s. induction pushed as [|R pushed IH]; intros s Hrt.
  - simpl. auto.
  - cbn [map run].
    assert (Hrt' : realTimeEnabled (step (NewLog R) s) = true).
    { now rewrite step_NewLog_enabled. }
    destruct (IH _ Hrt') as (Hl & Hn & Hr).
    assert (Hs : logs (step (NewLog R) s) = R :: logs s).
    { now rewrite step_NewLog_enabled. }
    rewrite Hs in Hl, Hn.
    split; [|split].
    + rewrite Hl. cbn [rev]. now rewrite <- app_assoc.
    + rewrite Hn. cbn [List.length]. lia.
    + exact Hr.
Qed.

(** In real-time mode, with a positive limit, a pushed record that
    matches the filter is the first of the visible list, followed by the
    matching records of the older history up to the limit. *)
Theorem matching_push_shown_first (s : State) (newLog : Log.t) :
  realTimeEnabled s = true ->
  0 < Filters.limit (filters s) ->
  logMatchesFilters (filters s) newLog = true ->
  filteredLogs (step (NewLog newLog) s)
  = newLog :: JS.slice0 (Filters.limit (filters s) - 1)
                        (applyFilters (filters s) (logs s)).
Proof.
  intros Hrt Hlim Hm. rewrite step_NewLog_enabled by assumption.
  cbn [filteredLogs]. unfold recompute.
  rewrite !applyFilters_filter. cbn [filter]. rewrite Hm.
  rewrite !slice0_nonneg by lia.
  replace (Z.to_nat (Filters.limit (filters s)))
    with (S (Z.to_nat (Filters.limit (filters s) - 1))) by lia.
  reflexivity.
Qed.

(** A record pushed while the filter rejected it is kept in the history,
    so that a later filter change that accepts it, with a positive limit,
    shows it first. *)
Theorem filter_change_reveals_push (s : State) (newLog : Log.t) (kv : Field) :
  realTimeEnabled s = true ->
  0 < Filters.limit (handleFilterChange kv (filters s)) ->
  logMatchesFilters (handleFilterChange kv (filters s)) newLog = true ->
  exists older,
    filteredLogs (run [NewLog newLog; FilterChange kv] s) = newLog :: older.
Proof.
  intros Hrt Hlim Hm. cbn [run].
  rewrite step_filteredLogs. cbn [logsReplaced filtersReplaced orb].
  rewrite step_NewLog_enabled by assumption.
  cbn [handler filters logs setFilters].
  unfold recompute. rewrite applyFilters_filter. cbn [filter]. rewrite Hm.
  rewrite slice0_nonneg by lia.
  replace (Z.to_nat (Filters.limit (handleFilterChange kv (filters s))))
    with (S (Z.to_nat (Filters.limit (handleFilterChange kv (filters s)) - 1)))
    by lia.
  cbn [firstn]. eexists. reflexivity.
Qed.

(** A push and a snapshot do not commute: in real-time mode the record
    pushed before the snapshot lands is lost, the record pushed after it
    is kept in front of the page. *)
Theorem push_and_snapshot_order (s : State) (newLog : Log.t)
        (response : Response) :
  realTimeEnabled s = true ->
  logs (run [NewLog newLog; FetchOk response] s) = resp_logs response /\
  logs (run [FetchOk response; NewLog newLog] s)
  = newLog :: resp_logs response.
Proof.
  intro Hrt. cbn [run]. split.
  - now rewrite step_logs.
  - rewrite step_NewLog_enabled; [now rewrite step_logs|].
    unfold step. cbn. exact Hrt.
Qed.

(** ** Filter and page controls *)

Lemma logMatchesFilters_page (F : Filters.t) (newPage : Z) (R : Log.t) :
  logMatchesFilters (handlePageChange newPage F) R = logMatchesFilters F R.
Proof.
  reflexivity.
Qed.

Lemma recompute_page (F : Filters.t) (newPage : Z) (l : list Log.t) :
  recompute (handlePageChange newPage F) l = recompute F l.
Proof.
  reflexivity.
Qed.

(** A page change asks for a new snapshot and nothing more: from a state
    whose visible list is the recompute of its history, the visible list
    and the history stay as they are (the local list has no pages), the
    filter keeps its other fields, and the loading flag is raised. *)
Theorem page_change_keeps_visible (s : State) (newPage : Z) :
  filteredLogs s = recompute (filters s) (logs s) ->
  let s' := step (PageChange newPage) s in
  filteredLogs s' = filteredLogs s /\
  logs s' = logs s /\
  Filters.page (filters s') = newPage /\
  handlePageChange (Filters.page (filters s)) (filters s') = filters s /\
  loading s' = true.
Proof.
  intro Hvis. cbv zeta.
  split; [|split; [|split; [|split]]]; try reflexivity.
  - rewrite step_filteredLogs. cbn [logsReplaced filtersReplaced orb].
    cbn [handler filters logs setFilters]. now rewrite recompute_page.
  - cbn. now destruct (filters s).
Qed.

(** The active-filter test of the view and the shortcut of [applyFilters]
    agree: with no active filter the history is shown unfiltered. *)
Lemma applyFilters_inactive (F : Filters.t) (l : list Log.t) :
  hasActiveFilters F = false -> applyFilters F l = l.
Proof.
  unfold hasActiveFilters, applyFilters. intro H.
  apply orb_false_iff in H. destruct H as [H Hq].
  apply orb_false_iff in H. destruct H as [Hl Hs].
  now rewrite Hl, Hs, Hq.
Qed.

(** The [Clear Filters] button is there exactly when a filter is active;
    a click on it restores the initial filter, page size 50 and page 1
    included, shows the first 50 records of the whole history, and removes
    the button. *)
Theorem clear_filters_button (s : State) :
  (click ClearFiltersButton s = Some ClearFilters <->
   hasActiveFilters (filters s) = true) /\
  (hasActiveFilters (filters s) = true ->
   let s' := clickStep ClearFiltersButton s in
   filters s' = defaultFilters /\
   filteredLogs s' = firstn 50 (logs s) /\
   logs s' = logs s /\
   click ClearFiltersButton s' = None).
Proof.
  split.
  - unfold click. destruct (hasActiveFilters (filters s)); split;
      intro H; congruence.
  - intro Ha. cbv zeta. unfold clickStep.
    replace (click ClearFiltersButton s) with (Some ClearFilters)
      by (unfold click; now rewrite Ha).
    split; [reflexivity|]. split; [|split; reflexivity].
    rewrite step_filteredLogs. cbn [logsReplaced filtersReplaced orb].
    cbn [handler filters logs setFilters]. unfold recompute.
    rewrite applyFilters_inactive by reflexivity.
    now rewrite slice0_nonneg by (simpl; lia).
Qed.

(** Changes through [handleFilterChange] compose by key: a second change
    of the same key replaces the first, and changes of different keys can
    be made in either order. *)
Theorem handleFilterChange_composes (a b : Field) (prev : Filters.t) :
  (sameKey a b = true ->
   handleFilterChange b (handleFilterChange a prev)
   = handleFilterChange b prev) /\
  (sameKey a b = false ->
   handleFilterChange b (handleFilterChange a prev)
   = handleFilterChange a (handleFilterChange b prev)).
Proof.
  split; intro H; destruct a, b; try discriminate H; reflexivity.
Qed.

(** ** What an event leaves alone *)

(** The history changes only on a push in real-time mode and on a
    snapshot; the filter changes only through its three controls. *)
Theorem history_and_filter_frame (e : Event) (s : State) :
  (logsReplaced e s = false -> logs (step e s) = logs s) /\
  (filtersReplaced e = false -> filters (step e s) = filters s).
Proof.
  split; intro H; [rewrite step_logs | rewrite step_filters];
    destruct e; try discriminate H; try reflexivity;
    cbn in *; unfold onNewLog.
  - now rewrite H.
  - now destruct (realTimeEnabled s).
  - destruct (realTimeEnabled s); [|reflexivity].
    now destruct (logMatchesFilters (filters s) newLog).
  - now destruct (realTimeEnabled s).
Qed.

(** The displayed stats change only on a [statsUpdate] message and on a
    stats response, the pagination only on a snapshot, and the real-time
    flag only through its setter: no push, filter change or failure
    touches them. *)
Theorem stats_pagination_mode_frame (e : Event) (s : State) :
  (touchesStats e = false -> stats (step e s) = stats s) /\
  ((forall response, e <> FetchOk response) ->
   pagination (step e s) = pagination s) /\
  ((forall enabled, e <> RealTime enabled) ->
   realTimeEnabled (step e s) = realTimeEnabled s).
Proof.
  split; [|split]; intro H; destruct e;
    try discriminate H; try (exfalso; eapply H; reflexivity);
    unfold step; cbn; unfold onNewLog;
    repeat match goal with
           | |- context [if ?b then _ else _] => destruct b eqn:?
           end; cbn; congruence.
Qed.

Lemma step_failure (e : Event) (s : State) :
  isFailure e = true ->
  logs (step e s) = logs s /\
  filteredLogs (step e s) = filteredLogs s /\
  stats (step e s) = stats s /\
  pagination (step e s) = pagination s /\
  filters (step e s) = filters s /\
  List.length (console (step e s)) = S (List.length (console s)).
Proof.
  destruct e; try discriminate; intros _; cbn;
    rewrite length_app; cbn; repeat split; lia.
Qed.

(** However many fetches fail, of logs or of stats, the data on display
    is the data of before, and the console has one more line per
    failure. *)
Theorem failures_keep_data (es : list Event) (s : State) :
  forallb isFailure es = true ->
  logs (run es s) = logs s /\
  filteredLogs (run es s) = filteredLogs s /\
  stats (run es s) = stats s /\
  pagination (run es s) = pagination s /\
  filters (run es s) = filters s /\
  List.length (console (run es s))
  = (List.length (console s) + List.length es)%nat.
Proof.
  revert s. induction es as [|e es IH]; intros s H.
  - cbn. repeat split; lia.
  - cbn in H. apply andb_true_iff in H. destruct H as [He Hes].
    cbn [run].
    destruct (step_failure e s He) as (H1 & H2 & H3 & H4 & H5 & H6).
    destruct (IH (step e s) Hes) as (I1 & I2 & I3 & I4 & I5 & I6).
    rewrite I1, I2, I3, I4, I5, I6, H1, H2, H3, H4, H5, H6.
    repeat split. cbn [List.length]. lia.
Qed.

(** ** The filter predicate, continued *)

Lemma sameLetter_isAsciiChar (a b : ascii) :
  sameLetter a b = true -> JS.isAsciiChar a = JS.isAsciiChar b.
Proof.
  intro H. apply Bool.eqb_prop.
  pose proof (ascii_pairs
                (fun a b => implb (sameLetter a b)
                                  (Bool.eqb (JS.isAsciiChar a)
                                            (JS.isAsciiChar b)))
                ltac:(vm_compute; reflexivity) a b) as Hp.
  cbn beta in Hp. now rewrite H in Hp.
Qed.

Lemma equalIgnoringCase_isAscii (s t : string) :
  equalIgnoringCase s t = true -> JS.isAscii s = JS.isAscii t.
Proof.
  revert t; induction s as [|a s IH]; intros [|b t];
    cbn [equalIgnoringCase JS.isAscii]; intro H; try congruence.
  apply andb_true_iff in H. destruct H as [Hc Hs].
  now rewrite (sameLetter_isAsciiChar _ _ Hc), (IH _ Hs).
Qed.

Lemma equalIgnoringCase_truthy (s t : string) :
  equalIgnoringCase s t = true -> JS.truthy s = JS.truthy t.
Proof.
  destruct s, t; cbn; congruence.
Qed.

(** On ASCII text the search ignores case on both sides: a search text,
    or a message, that differs from the given one in the case of its
    letters only gives the same answer. *)
Theorem search_ignores_case (F : Filters.t) (R : Log.t) (q m : string) :
  JS.isAscii (Filters.search F) = true ->
  JS.isAscii (Log.message R) = true ->
  equalIgnoringCase q (Filters.search F) = true ->
  equalIgnoringCase m (Log.message R) = true ->
  logMatchesFilters
    (assign (Search q) F)
    (Log.mk (Log._id R) (Log.timestamp R) (Log.level R) (Log.service R) m)
  = logMatchesFilters F R.
Proof.
  intros HF HR Hq Hm.
  assert (Hqa : JS.isAscii q = true)
    by now rewrite (equalIgnoringCase_isAscii _ _ Hq).
  assert (Hma : JS.isAscii m = true)
    by now rewrite (equalIgnoringCase_isAscii _ _ Hm).
  unfold logMatchesFilters. cbn.
  rewrite (toLowerCase_ascii _ Hqa), (toLowerCase_ascii _ Hma),
    (toLowerCase_ascii _ HF), (toLowerCase_ascii _ HR).
  apply equalIgnoringCase_iff in Hq, Hm.
  rewrite Hq, Hm.
  destruct (Filters.search F), q; cbn in *; try reflexivity; discriminate.
Qed.

Lemma filter_filter {A : Type} (f g : A -> bool) (l : list A) :
  filter f (filter g l) = filter (fun x => g x && f x)%bool l.
Proof.
  induction l as [|x l IH]; cbn; [reflexivity|].
  destruct (g x); cbn; [destruct (f x)|]; now rewrite IH.
Qed.

(** Setting a level on a filter that had none narrows the result: the
    records it selects are those the filter selected before that have
    this level. *)
Theorem level_filter_narrows (F : Filters.t) (v : string)
        (l : list Log.t) :
  Filters.level F = EmptyString ->
  v <> EmptyString ->
  applyFilters (assign (Level v) F) l
  = filter (fun R => String.eqb (Log.level R) v) (applyFilters F l).
Proof.
  intros HF Hv. rewrite !applyFilters_filter, filter_filter.
  apply filter_ext. intro R. unfold logMatchesFilters. cbn.
  rewrite HF. apply truthy_iff in Hv. rewrite Hv. cbn.
  destruct (String.eqb (Log.level R) v); cbn.
  - now rewrite andb_true_r.
  - now rewrite andb_false_r.
Qed.

(** ** The request of [fetchLogs] *)

Lemma fold_append_filter {A B : Type} (p : A -> bool) (g : A -> B)
      (l : list A) (acc : list B) :
  fold_left (fun params kv => if p kv then (params ++ [g kv])%list else params)
            l acc
  = (acc ++ map g (filter p l))%list.
Proof.
  revert acc. induction l as [|x l IH]; intro acc; cbn.
  - now rewrite app_nil_r.
  - rewrite IH. destruct (p x); cbn; [|reflexivity].
    now rewrite <- app_assoc.
Qed.

Lemma queryParams_closed (f : Filters.t) :
  queryParams f
  = map (fun kv => (fst kv, toString (snd kv)))
        (filter (fun kv => truthyValue (snd kv)) (entries f)).
Proof.
  unfold queryParams.
  exact (fold_append_filter (fun kv => truthyValue (snd kv))
           (fun kv => (fst kv, toString (snd kv))) (entries f) []).
Qed.

Lemma queryParams_In (f : Filters.t) (key text : string) :
  In (key, text) (queryParams f) <->
  exists v, In (key, v) (entries f) /\
            truthyValue v = true /\ text = toString v.
Proof.
  rewrite queryParams_closed, in_map_iff. split.
  - intros [[k v] [Heq Hin]]. cbn in Heq. injection Heq as <- <-.
    apply filter_In in Hin. destruct Hin as [Hin Ht]. now exists v.
  - intros [v (Hin & Ht & ->)]. exists (key, v). split; [reflexivity|].
    apply filter_In. now split.
Qed.

(** The request carries exactly the fields that are set: each non-empty
    string field and each non-zero number field once, under its own name,
    with its text or its decimal numeral, and nothing for an empty string
    or a zero. *)
Theorem queryParams_sends_set_fields (f : Filters.t) (key text : string) :
  (In (key, text) (queryParams f) <->
   exists v, In (key, v) (entries f) /\
             truthyValue v = true /\ text = toString v) /\
  NoDup (map fst (queryParams f)).
Proof.
  clear unicodeToLowerCase.
  split; [apply queryParams_In|].
  rewrite queryParams_closed.
  - unfold entries. cbn [filter snd truthyValue].
    destruct (JS.truthy (Filters.level f)), (JS.truthy (Filters.service f)),
      (JS.truthy (Filters.search f)), (negb (Filters.limit f =? 0)),
      (negb (Filters.page f =? 0)); cbn [map fst];
      repeat constructor; cbn; intuition discriminate.
Qed.

(** Whatever field [handleFilterChange] changes, the request built from
    its result asks for page 1. *)
Theorem filter_change_requests_first_page (kv : Field) (prev : Filters.t) :
  In ("page", "1")%string (queryParams (handleFilterChange kv prev)).
Proof.
  apply queryParams_In.
  exists (VNumber 1). split; [|split; reflexivity].
  unfold entries. replace (Filters.page (handleFilterChange kv prev)) with 1
    by now destruct kv.
  cbn. tauto.
Qed.

(** In every state the component reaches, the request carries the page
    size. *)
Theorem reachable_request_has_limit (s : State) :
  reachable s ->
  In ("limit"%string, toString (VNumber (Filters.limit (filters s))))
     (queryParams (filters s)).
Proof.
  intro Hr. destruct (reachable_settled s Hr) as [Hlim _].
  apply queryParams_In.
  exists (VNumber (Filters.limit (filters s))).
  split; [cbn; tauto|]. split; [|reflexivity].
  cbn. destruct (Z.eqb_spec (Filters.limit (filters s)) 0); [lia|reflexivity].
Qed.

(** ** The pagination bar *)

(** When the pagination the backend reported has its page within
    [1 .. pages], no click on the bar asks for a page outside that range:
    [Previous] is disabled on the first page and [Next] on the last. *)
Theorem pagination_click_in_range (s : State) (p : Pagination)
        (b : Button) (newPage : Z) :
  pagination s = Some p ->
  1 <= pg_page p <= pg_pages p ->
  click b s = Some (PageChange newPage) ->
  1 <= newPage <= pg_pages p /\
  Filters.page (filters (clickStep b s)) = newPage.
Proof.
  intros Hp Hrange Hc.
  assert (Hf : Filters.page (filters (clickStep b s)) = newPage).
  { unfold clickStep. rewrite Hc. reflexivity. }
  split; [|exact Hf].
  destruct b; cbn [click] in Hc; try rewrite Hp in Hc.
  - unfold previousDisabled in Hc.
    destruct (paginationShown s); [|discriminate].
    destruct (Z.eqb_spec (pg_page p) 1); [discriminate|].
    cbn in Hc. injection Hc as <-. lia.
  - unfold nextDisabled in Hc.
    destruct (paginationShown s); [|discriminate].
    destruct (Z.eqb_spec (pg_page p) (pg_pages p)); [discriminate|].
    cbn in Hc. injection Hc as <-. lia.
  - destruct (hasActiveFilters (filters s)); discriminate.
Qed.

(** The bar reads the page the backend last reported, not the page the
    filter asks for: until a new snapshot lands, a second click on [Next]
    asks for the same page as the first. *)
Theorem next_twice_same_page (s : State) (p : Pagination) :
  pagination s = Some p ->
  click Next s = Some (PageChange (pg_page p + 1)) ->
  click Next (clickStep Next s) = Some (PageChange (pg_page p + 1)) /\
  Filters.page (filters (clickStep Next (clickStep Next s))) = pg_page p + 1.
Proof.
  intros Hp Hc.
  assert (Hs : clickStep Next s = step (PageChange (pg_page p + 1)) s).
  { unfold clickStep. now rewrite Hc. }
  assert (Hc' : click Next (clickStep Next s)
                = Some (PageChange (pg_page p + 1))).
  { rewrite Hs. cbn in Hc |- *. unfold paginationShown in *. cbn.
    rewrite Hp in Hc |- *. exact Hc. }
  split; [exact Hc'|].
  unfold clickStep at 1. rewrite Hc'. reflexivity.
Qed.

(** ** The empty-table message *)

Lemma firstn_nil_inv {A : Type} (n : nat) (l : list A) :
  (0 < n)%nat -> firstn n l = [] -> l = [].
Proof.
  destruct n; [lia|]. now destruct l.
Qed.

(** The message under an empty table tells the truth in every state the
    component reaches: [No logs available.] is shown only when the history
    is empty, and [No logs match the current filters.] only when a filter
    is active and no record of the history matches it.  Neither is shown
    while a fetch is loading. *)
Theorem noLogsMessage_truthful (s : State) :
  reachable s ->
  (noLogsMessage s = Some "No logs available."%string -> logs s = []) /\
  (noLogsMessage s = Some "No logs match the current filters."%string ->
   hasActiveFilters (filters s) = true /\
   Forall (fun R => logMatchesFilters (filters s) R = false) (logs s)) /\
  (loading s = true -> noLogsMessage s = None).
Proof.
  intro Hr. destruct (reachable_settled s Hr) as [Hlim Hvis].
  assert (Hempty : filteredLogs s = [] ->
                   filter (logMatchesFilters (filters s)) (logs s) = []).
  { intro He. rewrite Hvis in He. unfold recompute in He.
    rewrite applyFilters_filter, slice0_nonneg in He by lia.
    apply firstn_nil_inv in He; [exact He | lia]. }
  unfold noLogsMessage.
  destruct (filteredLogs s) as [|R rest] eqn:Hf; cbn;
    [|repeat split; discriminate].
  destruct (loading s); cbn; [repeat split; discriminate|].
  specialize (Hempty eq_refl).
  destruct (hasActiveFilters (filters s)) eqn:Ha.
  - split; [discriminate|]. split; [|discriminate].
    intros _. split; [reflexivity|].
    apply Forall_forall. intros R HR.
    destruct (logMatchesFilters (filters s) R) eqn:Hm; [|reflexivity].
    assert (Hin : In R (filter (logMatchesFilters (filters s)) (logs s)))
      by (apply filter_In; now split).
    rewrite Hempty in Hin. contradiction.
  - split; [|split; discriminate].
    intros _. rewrite <- (applyFilters_inactive (filters s) (logs s) Ha).
    now rewrite applyFilters_filter.
Qed.

(** ** Colours *)

(** The chart and the level badges use the same colour for a level, and
    a level the chart does not list gets the grey default, which no chart
    entry uses. *)
Theorem chart_colors_match_badges (st : Stats) (e : ChartEntry) :
  In e (chartData st) ->
  color e = getLevelColor (name e) /\
  (forall level, (forall e', In e' (chartData st) -> name e' <> level) ->
                 getLevelColor level = "#757575"%string /\
                 getLevelColor level <> color e).
Proof.
  clear unicodeToLowerCase.
  intro He. split.
  - cbn in He. destruct He as [<- | [<- | [<- | []]]]; reflexivity.
  - intros level Hout.
    assert (Hi : String.eqb level "INFO" = false).
    { apply String.eqb_neq. intro E.
      apply (Hout (mkChartEntry "INFO" (INFO st) "#4CAF50"));
        [cbn; tauto | now rewrite E]. }
    assert (Hw : String.eqb level "WARN" = false).
    { apply String.eqb_neq. intro E.
      apply (Hout (mkChartEntry "WARN" (WARN st) "#FF9800"));
        [cbn; tauto | now rewrite E]. }
    assert (Hr : String.eqb level "ERROR" = false).
    { apply String.eqb_neq. intro E.
      apply (Hout (mkChartEntry "ERROR" (ERROR st) "#F44336"));
        [cbn; tauto | now rewrite E]. }
    unfold getLevelColor. rewrite Hi, Hw, Hr. split; [reflexivity|].
    cbn in He. destruct He as [<- | [<- | [<- | []]]]; discriminate.
Qed.

End App.

(** * Closed instances

    The component run on sample records.  Their texts are ASCII, where
    [toLowerCase] is [JS.asciiLowerCase] whatever the platform's mapping
    does elsewhere, so the instances pass it for the parameter. *)

Local Abbreviation lc := JS.asciiLowerCase (only parsing).

(** With a limit of zero the fast path still shows the new record. *)
Remark fastPath_limit_zero :
  let F := Filters.mk "" "" "" 0 1 in
  let R := Log.mk "1" "t" "INFO" "auth" "m" in
  fastPath F R (recompute lc F []) = [R] /\ recompute lc F [R] = [].
Proof.
  split; reflexivity.
Qed.

Lemma visible_slice_invariant_witness :
  let s := run lc [FilterChange (Level "ERROR"); NewLog infoLog;
                NewLog errorLog; PageChange 2;
                FetchOk (mkResponse [warnLog; errorLog]
                                    (mkPagination 1 1 2))] (mounted lc) in
  reachable lc s /\
  filteredLogs s = visibleSlice_spec lc (filters s) (logs s) /\
  filteredLogs s = [errorLog].
Proof.
  assert (H : reachable lc
                (run lc [FilterChange (Level "ERROR"); NewLog infoLog;
                      NewLog errorLog; PageChange 2;
                      FetchOk (mkResponse [warnLog; errorLog]
                                          (mkPagination 1 1 2))] (mounted lc))).
  { apply reachable_run; [apply reach_mounted|].
    repeat (constructor; [exact I|]). constructor. }
  split; [exact H|].
  split; [exact (visible_slice_invariant lc _ H) | reflexivity].
Defined.

Lemma newLog_fast_path_consistent_witness :
  let s := run lc [FilterChange (Limit 2); FilterChange (Level "ERROR");
                NewLog errorLog; NewLog errorLog] (mounted lc) in
  0 < Filters.limit (filters s) /\
  realTimeEnabled s = true /\
  logMatchesFilters lc (filters s) errorLog = true /\
  filteredLogs s = recompute lc (filters s) (logs s) /\
  filteredLogs (onNewLog lc errorLog s) = [errorLog; errorLog] /\
  step lc (NewLog errorLog) s = onNewLog lc errorLog s.
Proof.
  cbv zeta.
  pose proof (newLog_fast_path_consistent lc
                (run lc [FilterChange (Limit 2); FilterChange (Level "ERROR");
                      NewLog errorLog; NewLog errorLog] (mounted lc))
                errorLog ltac:(reflexivity) ltac:(reflexivity)
                ltac:(reflexivity) ltac:(reflexivity)) as H.
  cbv zeta in H. destruct H as (_ & _ & _ & Hstep).
  do 5 (split; [reflexivity|]). exact Hstep.
Defined.

(** The scenario of the specification: three pushed records, then a page
    of two. *)
Example fetch_after_three_pushes :
  let pushed := run lc [NewLog errorLog; NewLog errorLog; NewLog errorLog]
                    (mounted lc) in
  let page := mkResponse [infoLog; warnLog] (mkPagination 1 1 2) in
  logs pushed = [errorLog; errorLog; errorLog] /\
  logs (step lc (FetchOk page) pushed) = [infoLog; warnLog] /\
  filteredLogs (step lc (FetchOk page) pushed) = [infoLog; warnLog] /\
  pagination (step lc (FetchOk page) pushed) = Some (mkPagination 1 1 2).
Proof.
  repeat split; reflexivity.
Qed.

Lemma newLog_dropped_when_disabled_witness :
  let s := step lc (RealTime false) (step lc (NewLog infoLog) (mounted lc)) in
  realTimeEnabled s = false /\
  step lc (NewLog errorLog) s = s /\
  logs (step lc (NewLog errorLog) s) = [infoLog].
Proof.
  cbv zeta.
  split; [reflexivity|].
  split.
  - exact (proj1 (proj2 (newLog_dropped_when_disabled lc
                           (step lc (RealTime false)
                                 (step lc (NewLog infoLog) (mounted lc)))
                           errorLog eq_refl))).
  - reflexivity.
Defined.

Lemma newLog_prepended_when_enabled_witness :
  let s := step lc (FilterChange (Level "INFO")) (mounted lc) in
  realTimeEnabled s = true /\
  logMatchesFilters lc (filters s) errorLog = false /\
  logs (step lc (NewLog errorLog) s) = errorLog :: logs s /\
  ~ In errorLog (filteredLogs (step lc (NewLog errorLog) s)).
Proof.
  cbv zeta.
  pose proof (newLog_prepended_when_enabled lc
                (step lc (FilterChange (Level "INFO")) (mounted lc))
                errorLog eq_refl) as (_ & Hl & Hv).
  split; [reflexivity|].
  split; [reflexivity|].
  split; [exact Hl|].
  exact (proj2 (proj2 (Hv eq_refl))).
Defined.

Lemma visible_length_bounded_witness :
  let s := run lc [FilterChange (Limit 2); NewLog infoLog; NewLog errorLog;
                NewLog warnLog] (mounted lc) in
  reachable lc s /\
  filteredLogs s = [warnLog; errorLog] /\
  Z.of_nat (List.length (filteredLogs s)) <= Filters.limit (filters s).
Proof.
  assert (H : reachable lc
                (run lc [FilterChange (Limit 2); NewLog infoLog;
                      NewLog errorLog; NewLog warnLog] (mounted lc))).
  { apply reachable_run; [apply reach_mounted|].
    constructor; [simpl; lia|].
    repeat (constructor; [exact I|]). constructor. }
  split; [exact H|].
  split; [reflexivity|].
  exact (proj1 (visible_length_bounded lc _ H)).
Defined.

Example level_filter_scenario :
  recompute lc (Filters.mk "ERROR" "" "" 50 1) [infoLog; errorLog; warnLog]
  = [errorLog].
Proof. reflexivity. Qed.

Example search_is_case_insensitive :
  logMatchesFilters lc (Filters.mk "" "" "auth" 50 1) errorLog = true /\
  logMatchesFilters lc (Filters.mk "" "" "AUTH F" 50 1) errorLog = true /\
  logMatchesFilters lc (Filters.mk "" "" "auth" 50 1) infoLog = false.
Proof. repeat split; reflexivity. Qed.

Example filters_are_conjunctive :
  logMatchesFilters lc (Filters.mk "ERROR" "auth" "failed" 50 1) errorLog = true /\
  logMatchesFilters lc (Filters.mk "ERROR" "payments" "failed" 50 1) errorLog
  = false /\
  logMatchesFilters lc (Filters.mk "WARN" "auth" "failed" 50 1) errorLog = false /\
  logMatchesFilters lc (Filters.mk "ERROR" "auth" "timeout" 50 1) errorLog
  = false.
Proof. repeat split; reflexivity. Qed.

Example mismatch_enters_history_only :
  let s := step lc (NewLog errorLog) (step lc (FilterChange (Level "INFO")) (mounted lc)) in
  logs s = [errorLog] /\ filteredLogs s = [].
Proof. split; reflexivity. Qed.

Lemma recompute_idempotent_witness :
  let F := Filters.mk "" "auth" "" 1 1 in
  0 <= Filters.limit F /\
  recompute lc F [infoLog; errorLog; warnLog] = [errorLog] /\
  recompute lc F (recompute lc F [infoLog; errorLog; warnLog])
  = recompute lc F [infoLog; errorLog; warnLog].
Proof.
  cbv zeta. split; [simpl; lia|]. split; [reflexivity|].
  apply (recompute_idempotent lc). simpl. lia.
Defined.

(** With a negative limit the recompute is not idempotent: each pass
    drops the last record again. *)
Remark recompute_negative_limit :
  let F := Filters.mk "" "" "" (-1) 1 in
  recompute lc F [infoLog; errorLog; warnLog] = [infoLog; errorLog] /\
  recompute lc F (recompute lc F [infoLog; errorLog; warnLog]) = [infoLog].
Proof.
  split; reflexivity.
Qed.

Lemma fetchLogs_ok_recompute_noop_witness :
  let s := step lc (FilterChange (Service "auth")) (mounted lc) in
  let page := mkResponse [errorLog; warnLog] (mkPagination 1 1 2) in
  Forall (fun R => logMatchesFilters lc (filters s) R = true) (resp_logs page) /\
  Z.of_nat (List.length (resp_logs page)) <= Filters.limit (filters s) /\
  filteredLogs (step lc (FetchOk page) s) = [errorLog; warnLog].
Proof.
  cbv zeta.
  assert (Hall : Forall
            (fun R => logMatchesFilters lc
                        (filters (step lc (FilterChange (Service "auth")) (mounted lc)))
                        R = true)
            (resp_logs (mkResponse [errorLog; warnLog] (mkPagination 1 1 2)))).
  { repeat constructor. }
  assert (Hlen : Z.of_nat (List.length
             (resp_logs (mkResponse [errorLog; warnLog] (mkPagination 1 1 2))))
           <= Filters.limit
                (filters (step lc (FilterChange (Service "auth")) (mounted lc)))).
  { simpl. lia. }
  split; [exact Hall|]. split; [exact Hlen|].
  exact (proj2 (fetchLogs_ok_recompute_noop lc _ _ Hall Hlen)).
Defined.

(** A snapshot that holds a record the active filter rejects does not
    stay on display as it came: the recompute effect removes the record. *)
Remark fetchLogs_ok_refilters :
  let s := step lc (FilterChange (Level "ERROR")) (mounted lc) in
  let page := mkResponse [infoLog; errorLog] (mkPagination 1 1 2) in
  filteredLogs (fetchLogs_ok page s) = [infoLog; errorLog] /\
  filteredLogs (step lc (FetchOk page) s) = [errorLog].
Proof.
  split; reflexivity.
Qed.

Lemma newLog_settles_from_history_only_witness :
  realTimeEnabled (mounted lc) = true /\
  step lc (NewLog errorLog) (setFilteredLogs [infoLog; warnLog] (mounted lc))
  = step lc (NewLog errorLog) (mounted lc).
Proof.
  split; [reflexivity|].
  apply (newLog_settles_from_history_only lc). reflexivity.
Defined.

Lemma pushes_accumulate_witness :
  realTimeEnabled (mounted lc) = true /\
  logs (run lc (map NewLog [infoLog; errorLog; warnLog]) (mounted lc))
  = [warnLog; errorLog; infoLog].
Proof.
  split; [reflexivity|].
  exact (proj1 (pushes_accumulate lc [infoLog; errorLog; warnLog] (mounted lc)
                                  eq_refl)).
Defined.

Lemma matching_push_shown_first_witness :
  let s := run lc [FilterChange (Limit 2); NewLog infoLog; NewLog warnLog]
               (mounted lc) in
  realTimeEnabled s = true /\
  0 < Filters.limit (filters s) /\
  logMatchesFilters lc (filters s) errorLog = true /\
  filteredLogs (step lc (NewLog errorLog) s) = [errorLog; warnLog].
Proof.
  cbv zeta. do 3 (split; [reflexivity|]).
  rewrite (matching_push_shown_first lc) by reflexivity. reflexivity.
Defined.

Lemma filter_change_reveals_push_witness :
  let s := step lc (FilterChange (Level "INFO")) (mounted lc) in
  realTimeEnabled s = true /\
  logMatchesFilters lc (filters s) errorLog = false /\
  filteredLogs (step lc (NewLog errorLog) s) = [] /\
  exists older,
    filteredLogs (run lc [NewLog errorLog; FilterChange (Level "ERROR")] s)
    = errorLog :: older.
Proof.
  cbv zeta. do 3 (split; [reflexivity|]).
  apply (filter_change_reveals_push lc); reflexivity.
Defined.

Lemma push_and_snapshot_order_witness :
  let page := mkResponse [infoLog] (mkPagination 1 1 1) in
  realTimeEnabled (mounted lc) = true /\
  logs (run lc [NewLog errorLog; FetchOk page] (mounted lc)) = [infoLog] /\
  logs (run lc [FetchOk page; NewLog errorLog] (mounted lc)) = [errorLog; infoLog].
Proof.
  cbv zeta. split; [reflexivity|].
  exact (push_and_snapshot_order lc (mounted lc) errorLog
           (mkResponse [infoLog] (mkPagination 1 1 1)) eq_refl).
Defined.

Lemma page_change_keeps_visible_witness :
  let s := run lc [NewLog infoLog; NewLog errorLog] (mounted lc) in
  filteredLogs s = recompute lc (filters s) (logs s) /\
  filteredLogs (step lc (PageChange 3) s) = [errorLog; infoLog] /\
  Filters.page (filters (step lc (PageChange 3) s)) = 3.
Proof.
  cbv zeta. split; [reflexivity|].
  destruct (page_change_keeps_visible lc
              (run lc [NewLog infoLog; NewLog errorLog] (mounted lc)) 3 eq_refl)
    as (Hv & _ & Hp & _).
  split; [rewrite Hv; reflexivity | exact Hp].
Defined.

Lemma clear_filters_button_witness :
  let s := run lc [NewLog infoLog; NewLog errorLog; FilterChange (Limit 25);
                FilterChange (Level "ERROR")] (mounted lc) in
  hasActiveFilters (filters s) = true /\
  filteredLogs s = [errorLog] /\
  filteredLogs (clickStep lc ClearFiltersButton s) = [errorLog; infoLog] /\
  filters (clickStep lc ClearFiltersButton s) = defaultFilters.
Proof.
  cbv zeta. split; [reflexivity|]. split; [reflexivity|].
  destruct (proj2 (clear_filters_button lc
                     (run lc [NewLog infoLog; NewLog errorLog;
                           FilterChange (Limit 25);
                           FilterChange (Level "ERROR")] (mounted lc))) eq_refl)
    as (Hf & Hv & _).
  split; [rewrite Hv; reflexivity | exact Hf].
Defined.

Lemma handleFilterChange_composes_witness :
  sameKey (Level "INFO") (Level "WARN") = true /\
  sameKey (Level "INFO") (Search "auth") = false /\
  handleFilterChange (Level "WARN")
    (handleFilterChange (Level "INFO") defaultFilters)
  = handleFilterChange (Level "WARN") defaultFilters /\
  handleFilterChange (Search "auth")
    (handleFilterChange (Level "INFO") defaultFilters)
  = handleFilterChange (Level "INFO")
      (handleFilterChange (Search "auth") defaultFilters).
Proof.
  split; [reflexivity|]. split; [reflexivity|]. split.
  - exact (proj1 (handleFilterChange_composes
                    (Level "INFO") (Level "WARN") defaultFilters) eq_refl).
  - exact (proj2 (handleFilterChange_composes
                    (Level "INFO") (Search "auth") defaultFilters) eq_refl).
Defined.

Lemma history_and_filter_frame_witness :
  let s := step lc (NewLog infoLog) (mounted lc) in
  logsReplaced (StatsUpdate (mkStats 1 0 0 1 0)) s = false /\
  logs (step lc (StatsUpdate (mkStats 1 0 0 1 0)) s) = [infoLog] /\
  filtersReplaced (NewLog errorLog) = false /\
  filters (step lc (NewLog errorLog) s) = defaultFilters.
Proof.
  cbv zeta. split; [reflexivity|]. split.
  - rewrite (proj1 (history_and_filter_frame lc
                      (StatsUpdate (mkStats 1 0 0 1 0))
                      (step lc (NewLog infoLog) (mounted lc))) eq_refl).
    reflexivity.
  - split; [reflexivity|].
    rewrite (proj2 (history_and_filter_frame lc (NewLog errorLog)
                      (step lc (NewLog infoLog) (mounted lc))) eq_refl).
    reflexivity.
Defined.

Lemma stats_pagination_mode_frame_witness :
  let s := run lc [StatsUpdate (mkStats 3 2 1 6 16);
                FetchOk (mkResponse [infoLog] (mkPagination 1 2 60))]
               (mounted lc) in
  touchesStats (NewLog errorLog) = false /\
  stats (step lc (NewLog errorLog) s) = mkStats 3 2 1 6 16 /\
  pagination (step lc (FilterChange (Level "WARN")) s)
  = Some (mkPagination 1 2 60).
Proof.
  cbv zeta. split; [reflexivity|]. split.
  - rewrite (proj1 (stats_pagination_mode_frame lc (NewLog errorLog)
                      (run lc [StatsUpdate (mkStats 3 2 1 6 16);
                            FetchOk (mkResponse [infoLog]
                                                (mkPagination 1 2 60))]
                           (mounted lc))) eq_refl).
    reflexivity.
  - rewrite (proj1 (proj2 (stats_pagination_mode_frame lc
                             (FilterChange (Level "WARN"))
                             (run lc [StatsUpdate (mkStats 3 2 1 6 16);
                                   FetchOk (mkResponse [infoLog]
                                              (mkPagination 1 2 60))]
                                  (mounted lc))))
               ltac:(intros response; discriminate)).
    reflexivity.
Defined.

Lemma failures_keep_data_witness :
  let s := run lc [NewLog infoLog; StatsUpdate (mkStats 1 0 0 1 0)] (mounted lc) in
  forallb isFailure [FetchError; StatsError; FetchError] = true /\
  logs (run lc [FetchError; StatsError; FetchError] s) = [infoLog] /\
  stats (run lc [FetchError; StatsError; FetchError] s) = mkStats 1 0 0 1 0.
Proof.
  cbv zeta. split; [reflexivity|].
  destruct (failures_keep_data lc [FetchError; StatsError; FetchError]
              (run lc [NewLog infoLog; StatsUpdate (mkStats 1 0 0 1 0)] (mounted lc))
              eq_refl) as (Hl & _ & Hs & _).
  split; [rewrite Hl | rewrite Hs]; reflexivity.
Defined.

Lemma level_filter_narrows_witness :
  let F := Filters.mk "" "auth" "" 50 1 in
  Filters.level F = EmptyString /\
  "WARN"%string <> EmptyString /\
  applyFilters lc (assign (Level "WARN") F) [infoLog; errorLog; warnLog]
  = [warnLog].
Proof.
  cbv zeta. split; [reflexivity|]. split; [discriminate|].
  rewrite (level_filter_narrows lc); [reflexivity | reflexivity | discriminate].
Defined.

Lemma queryParams_sends_set_fields_example :
  queryParams (Filters.mk "ERROR" "" "time out" 25 0)
  = [("level", "ERROR"); ("search", "time out"); ("limit", "25")]%string.
Proof.
  reflexivity.
Qed.

Lemma reachable_request_has_limit_witness :
  let s := run lc [FilterChange (Limit 25); FilterChange (Service "auth")]
               (mounted lc) in
  reachable lc s /\
  In ("limit", "25")%string (queryParams (filters s)) /\
  queryParams (filters s)
  = [("service", "auth"); ("limit", "25"); ("page", "1")]%string.
Proof.
  assert (H : reachable lc
                (run lc [FilterChange (Limit 25); FilterChange (Service "auth")]
                     (mounted lc))).
  { apply reachable_run; [apply reach_mounted|].
    constructor; [simpl; lia|]. constructor; [exact I|]. constructor. }
  split; [exact H|].
  split; [exact (reachable_request_has_limit lc _ H) | reflexivity].
Defined.

Lemma pagination_click_in_range_witness :
  let s := step lc (FetchOk (mkResponse [infoLog] (mkPagination 2 3 120)))
                (mounted lc) in
  pagination s = Some (mkPagination 2 3 120) /\
  1 <= 2 <= 3 /\
  click Next s = Some (PageChange 3) /\
  Filters.page (filters (clickStep lc Next s)) = 3.
Proof.
  cbv zeta. split; [reflexivity|]. split; [lia|]. split; [reflexivity|].
  exact (proj2 (pagination_click_in_range lc
                  (step lc (FetchOk (mkResponse [infoLog]
                                             (mkPagination 2 3 120))) (mounted lc))
                  (mkPagination 2 3 120) Next 3 eq_refl
                  ltac:(cbn; lia) eq_refl)).
Defined.

Lemma next_twice_same_page_witness :
  let s := step lc (FetchOk (mkResponse [infoLog] (mkPagination 1 3 120)))
                (mounted lc) in
  pagination s = Some (mkPagination 1 3 120) /\
  click Next s = Some (PageChange 2) /\
  Filters.page (filters (clickStep lc Next (clickStep lc Next s))) = 2.
Proof.
  cbv zeta. split; [reflexivity|]. split; [reflexivity|].
  exact (proj2 (next_twice_same_page lc
                  (step lc (FetchOk (mkResponse [infoLog]
                                             (mkPagination 1 3 120))) (mounted lc))
                  (mkPagination 1 3 120) eq_refl eq_refl)).
Defined.

Lemma noLogsMessage_truthful_witness :
  let s := run lc [FilterChange (Level "WARN"); NewLog errorLog; FetchError]
               (mounted lc) in
  reachable lc s /\
  noLogsMessage s = Some "No logs match the current filters."%string /\
  Forall (fun R => logMatchesFilters lc (filters s) R = false) (logs s).
Proof.
  assert (H : reachable lc
                (run lc [FilterChange (Level "WARN"); NewLog errorLog;
                      FetchError] (mounted lc))).
  { apply reachable_run; [apply reach_mounted|].
    repeat (constructor; [exact I|]). constructor. }
  split; [exact H|]. split; [reflexivity|].
  exact (proj2 (proj1 (proj2 (noLogsMessage_truthful lc _ H)) eq_refl)).
Defined.

Lemma chart_colors_match_badges_witness :
  let st := mkStats 4 2 1 7 14 in
  let e := mkChartEntry "WARN" 2 "#FF9800" in
  In e (chartData st) /\ color e = getLevelColor (name e).
Proof.
  cbv zeta.
  assert (H : In (mkChartEntry "WARN" 2 "#FF9800")
                 (chartData (mkStats 4 2 1 7 14))) by (cbn; tauto).
  split; [exact H|].
  exact (proj1 (chart_colors_match_badges _ _ H)).
Defined.

Lemma logMatchesFilters_iff_satisfies_witness :
  let F := Filters.mk "" "" "auth" 50 1 in
  JS.isAscii (Log.message errorLog) = true /\
  JS.isAscii (Filters.search F) = true /\
  satisfiesIgnoringCase errorLog F /\
  logMatchesFilters lc F errorLog = true.
Proof.
  cbv zeta.
  assert (Hs : satisfiesIgnoringCase errorLog (Filters.mk "" "" "auth" 50 1)).
  { split; [intro H; now contradiction H|].
    split; [intro H; now contradiction H|].
    intros _. exists EmptyString, "Auth"%string, " failed"%string.
    split; reflexivity. }
  split; [reflexivity|]. split; [reflexivity|]. split; [exact Hs|].
  exact (proj2 (proj2 (logMatchesFilters_iff_satisfies lc errorLog
                         (Filters.mk "" "" "auth" 50 1)) eq_refl eq_refl) Hs).
Defined.

Lemma search_ignores_case_witness :
  let F := Filters.mk "" "" "auth" 50 1 in
  JS.isAscii (Filters.search F) = true /\
  JS.isAscii (Log.message errorLog) = true /\
  equalIgnoringCase "AUTH" (Filters.search F) = true /\
  equalIgnoringCase "auth FAILED" (Log.message errorLog) = true /\
  logMatchesFilters lc (assign (Search "AUTH") F)
    (Log.mk "a1" "2024-01-01T00:00:00Z" "ERROR" "auth" "auth FAILED")
  = logMatchesFilters lc F errorLog.
Proof.
  cbv zeta. do 4 (split; [reflexivity|]).
  exact (search_ignores_case lc (Filters.mk "" "" "auth" 50 1) errorLog
           "AUTH" "auth FAILED" eq_refl eq_refl eq_refl eq_refl).
Defined.

(** C7, as the claim words it, fails between a handler and the recompute
    effect: [fetchLogs] writes the page to the visible list as it came
    (line 125), and [handleFilterChange] lowers the limit without cutting
    the list.  Here a page of three lands at limit 2, and the limit drops
    to 2 under a list of three. *)
Lemma visible_length_exceeds_limit_before_recompute :
  let s := step lc (FilterChange (Limit 2)) (mounted lc) in
  let page := mkResponse [infoLog; errorLog; warnLog] (mkPagination 1 1 3) in
  let t := run lc [NewLog infoLog; NewLog errorLog; NewLog warnLog]
               (mounted lc) in
  (reachable lc s /\
   Filters.limit (filters (handler lc (FetchOk page) s)) = 2 /\
   Z.of_nat (List.length (filteredLogs (handler lc (FetchOk page) s))) = 3 /\
   ~ (Z.of_nat (List.length (filteredLogs (handler lc (FetchOk page) s)))
      <= Filters.limit (filters (handler lc (FetchOk page) s)))) /\
  (reachable lc t /\
   Filters.limit (filters (handler lc (FilterChange (Limit 2)) t)) = 2 /\
   Z.of_nat (List.length
               (filteredLogs (handler lc (FilterChange (Limit 2)) t))) = 3 /\
   ~ (Z.of_nat (List.length
                  (filteredLogs (handler lc (FilterChange (Limit 2)) t)))
      <= Filters.limit (filters (handler lc (FilterChange (Limit 2)) t)))).
Proof.
  cbv zeta.
  split;
    (split;
     [|split; [reflexivity|split;
                 [reflexivity | vm_compute; intro H; now apply H]]]).
  - apply (reachable_run lc [FilterChange (Limit 2)]);
      [apply reach_mounted|].
    constructor; [simpl; lia | constructor].
  - apply reachable_run; [apply reach_mounted|].
    repeat (constructor; [exact I|]). constructor.
Qed.
